(** * MorpheusHelper: rule commands and the warning record

    A shallow embedding of [cogs/rules.py] (the command handlers of
    [RulesCog]) and of [models/mod.py] (the [Warn] table and its factory),
    followed by the properties of the handlers.

    - [Py]      : the two fragments of the Python library the handlers use on
                  strings, [re.match] for the colour pattern and [int(s, 16)].
    - [Discord] : the objects of the chat platform the handlers receive, the
                  calls they issue and the exceptions those calls raise.
    - [Rules]   : the handlers of [cogs/rules.py].
    - [Mod]     : [models/mod.py].

    A handler is modelled as written, from its first statement on: the
    decorators [permission_level] and [guild_only] are checks of the command
    dispatcher which are run before the handler is entered. *)

From stdpp Require Import base option list strings.
From Stdlib Require Import ZArith Ascii String Lia.

Local Open Scope string_scope.
Local Open Scope list_scope.
Local Open Scope Z_scope.

(* ===================================================================== *)
(** * Python strings: [re.match] and [int]                                *)
(* ===================================================================== *)

Module Py.

(** A Python [str] is modelled as a Rocq [string], one [ascii] for one
    character.  The character classes below only contain ASCII
    characters. *)

Definition code (c : ascii) : N := N_of_ascii c.

(** The range [lo-hi] of a character set. *)
Definition in_range (lo hi c : ascii) : bool :=
  ((code lo <=? code c) && (code c <=? code hi))%N.

(** The set [[0-9a-fA-F]]. *)
Definition hex_class (c : ascii) : bool :=
  in_range "0" "9" c || in_range "a" "f" c || in_range "A" "F" c.

Definition LF : ascii := ascii_of_nat 10.

(** The items a pattern is made of, as far as the handlers use them. *)
Inductive re_item : Type :=
| Caret                                        (* ^ *)
| Dollar                                       (* $ *)
| Repeat (cls : ascii -> bool) (n : nat).      (* [...]{n} *)

(** [eat cls n s]: consume exactly [n] characters of the class. *)
Fixpoint eat (cls : ascii -> bool) (n : nat) (s : string) : option string :=
  match n with
  | O => Some s
  | S n' =>
      match s with
      | String c s' => if cls c then eat cls n' s' else None
      | EmptyString => None
      end
  end.

(** Without [re.MULTILINE], [^] matches at the start of the string only and
    [$] matches at the end of the string or just before a newline that is
    the last character of the string. *)
Definition at_dollar (s : string) : bool :=
  match s with
  | EmptyString => true
  | String c EmptyString => bool_decide (c = LF)
  | _ => false
  end.

(** [match_here items pos s]: the items match a prefix of [s], the part of
    the subject that starts at position [pos]. *)
Fixpoint match_here (items : list re_item) (pos : nat) (s : string) : bool :=
  match items with
  | [] => true
  | Caret :: items' => Nat.eqb pos 0 && match_here items' pos s
  | Dollar :: items' => at_dollar s && match_here items' pos s
  | Repeat cls n :: items' =>
      match eat cls n s with
      | Some s' => match_here items' (pos + n) s'
      | None => false
      end
  end.

(** [re.match(pattern, s)] as a truth value: the pattern is tried at the
    start of the string. *)
Definition re_match (pattern : list re_item) (s : string) : bool :=
  match_here pattern 0 s.

(** The pattern [r"^[0-9a-fA-F]{6}$"]. *)
Definition color_pattern : list re_item := [Caret; Repeat hex_class 6; Dollar].

(** ** [int(s, 16)] *)

(** [str.isspace] on ASCII: TAB, LF, VT, FF, CR, the separators FS, GS, RS,
    US and the space. *)
Definition is_space (c : ascii) : bool :=
  let n := code c in
  ((9 <=? n) && (n <=? 13) || (28 <=? n) && (n <=? 31) || (n =? 32))%N.

Fixpoint lstrip (cs : list ascii) : list ascii :=
  match cs with
  | c :: cs' => if is_space c then lstrip cs' else cs
  | [] => []
  end.

Definition strip (cs : list ascii) : list ascii :=
  rev (lstrip (rev (lstrip cs))).

(** The value of a digit in base 16. *)
Definition hex_val (c : ascii) : option Z :=
  if in_range "0" "9" c then Some (Z.of_N (code c) - 48)
  else if in_range "a" "f" c then Some (Z.of_N (code c) - 87)
  else if in_range "A" "F" c then Some (Z.of_N (code c) - 55)
  else None.

(** Digits, with single underscores between two digits; [prev] tells
    whether the character before is a digit. *)
Fixpoint digits16 (acc : Z) (prev : bool) (cs : list ascii) : option Z :=
  match cs with
  | [] => if prev then Some acc else None
  | c :: cs' =>
      if bool_decide (c = "_"%char) then
        if prev then digits16 acc false cs' else None
      else
        match hex_val c with
        | Some d => digits16 (16 * acc + d) true cs'
        | None => None
        end
  end.

(** After the sign: an optional [0x] or [0X], which one underscore may
    follow, then the digits. *)
Definition unsigned16 (cs : list ascii) : option Z :=
  match cs with
  | c :: x :: cs' =>
      if bool_decide (c = "0"%char)
         && (bool_decide (x = "x"%char) || bool_decide (x = "X"%char))
      then
        match cs' with
        | u :: cs'' =>
            if bool_decide (u = "_"%char) then digits16 0 false cs''
            else digits16 0 false cs'
        | [] => digits16 0 false cs'
        end
      else digits16 0 false cs
  | _ => digits16 0 false cs
  end.

(** [int(s, 16)]; [None] stands for [ValueError]. *)
Definition int16 (s : string) : option Z :=
  match strip (list_ascii_of_string s) with
  | c :: cs =>
      if bool_decide (c = "+"%char) then unsigned16 cs
      else if bool_decide (c = "-"%char) then Z.opp <$> unsigned16 cs
      else unsigned16 (c :: cs)
  | [] => None
  end.

(** ** The words of the specification *)

(** A string of exactly six hexadecimal digits. *)
Definition six_hex_digits (s : string) : bool :=
  Nat.eqb (String.length s) 6 && forallb hex_class (list_ascii_of_string s).

(** The base-16 integer value of a string of hexadecimal digits: each
    digit weighs sixteen times the digit to its right. *)
Fixpoint positional16 (cs : list ascii) : Z :=
  match cs with
  | [] => 0
  | c :: cs' =>
      default 0 (hex_val c) * 16 ^ Z.of_nat (List.length cs') + positional16 cs'
  end.

Definition base16_value (s : string) : Z :=
  positional16 (list_ascii_of_string s).

(** The string ends with a line feed. *)
Definition ends_with_LF (s : string) : bool :=
  match rev (list_ascii_of_string s) with
  | c :: _ => bool_decide (c = LF)
  | [] => false
  end.

End Py.

(* ===================================================================== *)
(** * The string table                                                     *)
(* ===================================================================== *)

Module Translations.

(** The attributes of [translations] the handlers read.  The table itself
    is loaded from a file of the deployment; a handler's error is identified
    by the attribute it was built from. *)
Inductive key : Type :=
| rule
| send_message
| send_embed_title
| send_embed_content
| send_new_message
| msg_sent
| msg_edited
| msg_deleted
| could_not_send_message
| could_not_send_embed
| msg_could_not_be_sent
| invalid_color
| title_too_long
| could_not_edit
| cannot_edit_files
| cannot_delete_dm
| could_not_delete.

End Translations.

(* ===================================================================== *)
(** * The chat platform                                                    *)
(* ===================================================================== *)

Module Discord.

(** Users and members are compared by their identifier. *)
Definition User : Type := Z.

(** [a != b] on users. *)
Definition user_ne (a b : User) : bool := negb (a =? b)%Z.

Definition Colour : Type := Z.

Module Permissions.
Record t : Type := make
  { send_messages : bool;
    embed_links : bool;
    manage_messages : bool }.
End Permissions.

Module Guild.
Record t : Type := make
  { id : Z;
    me : User }.
End Guild.

Module TextChannel.
Record t : Type := make
  { id : Z;
    guild : Guild.t;
    permissions_for : User -> Permissions.t }.
End TextChannel.

Module Embed.
Record t : Type := make
  { title : string;
    colour : option Colour;
    description : string }.

(** [embed.description += text] *)
Definition add_description (embed : t) (text : string) : t :=
  {| title := title embed;
     colour := colour embed;
     description := description embed +:+ text |}.

(** [embed.colour = value] *)
Definition set_colour (embed : t) (value : Colour) : t :=
  {| title := title embed;
     colour := Some value;
     description := description embed |}.
End Embed.

Module File.
Record t : Type := make
  { filename : string;
    data : string }.
End File.

Module Message.
(** [guild] is [None] for a message of a private channel. *)
Record t : Type := make
  { id : Z;
    author : User;
    guild : option Guild.t;
    channel : TextChannel.t }.
End Message.

Module Bot.
Record t : Type := make
  { user : User }.
End Bot.

Module Context.
Record t : Type := make
  { channel : TextChannel.t;
    author : User;
    invoked_subcommand : option string }.
End Context.

(** ** Exceptions *)

Inductive Exception : Type :=
| CommandError (message : Translations.key)   (* discord.ext.commands *)
| UserInputError                              (* discord.ext.commands *)
| ValueError
| HTTPException                               (* http.client *)
| Forbidden                                   (* discord *)
| NotFound                                    (* discord *)
| DiscordHTTPException                        (* discord, any other status *)
| OtherException (name : string).

Inductive Result (A : Type) : Type :=
| Ok (a : A)
| Raise (e : Exception).
Arguments Ok {A} a.
Arguments Raise {A} e.

(** ** Calls to the platform *)

(** A keyword argument of [Message.edit]: left out, or passed. *)
Inductive Kwarg (A : Type) : Type :=
| Omitted
| Passed (a : A).
Arguments Omitted {A}.
Arguments Passed {A} a.

Module Edit.
Record t : Type := make
  { content : Kwarg (option string);
    embed : Kwarg (option Embed.t);
    files : Kwarg (list File.t) }.
End Edit.

(** What a handler asks of the platform, or of the two message readers of
    [util], which wait for and download messages. *)
Inductive Call : Type :=
| Send (channel : Z) (content : option string) (embed : option Embed.t)
       (files : list File.t)
| EditMessage (message : Z) (fields : Edit.t)
| DeleteMessage (message : Z)
| ReadNormalMessage (channel : Z) (author : User) (flag : bool)
| ReadCompleteMessage (message : Z).

(** The platform answers a call given the calls made before it.  Every
    call may be refused with an exception. *)
Record Platform : Type :=
  { on_send : list Call -> TextChannel.t -> option string ->
              option Embed.t -> list File.t -> Result Message.t;
    on_edit : list Call -> Message.t -> Edit.t -> Result unit;
    on_delete : list Call -> Message.t -> Result unit;
    on_read_normal_message :
      list Call -> Bot.t -> TextChannel.t -> User -> bool ->
      Result (string * list File.t);
    on_read_complete_message :
      list Call -> Message.t ->
      Result (string * list File.t * option Embed.t) }.

(** ** Coroutines

    A coroutine runs against a platform, from the calls made so far, to a
    result and the calls made when it ends. *)
Definition M (A : Type) : Type := Platform -> list Call -> Result A * list Call.

Definition ret {A} (a : A) : M A := fun _ h => (Ok a, h).

Definition raise {A} (e : Exception) : M A := fun _ h => (Raise e, h).

Definition bind {A B} (m : M A) (k : A -> M B) : M B :=
  fun P h =>
    match m P h with
    | (Ok a, h') => k a P h'
    | (Raise e, h') => (Raise e, h')
    end.

(** [try: body  except classes: handler  else: orelse] *)
Definition try_except_else {A B} (body : M A) (classes : Exception -> bool)
    (handler : M B) (orelse : A -> M B) : M B :=
  fun P h =>
    match body P h with
    | (Ok a, h') => orelse a P h'
    | (Raise e, h') => if classes e then handler P h' else (Raise e, h')
    end.

(** [await channel.send(content=, embed=, files=)] *)
Definition channel_send (channel : TextChannel.t) (content : option string)
    (embed : option Embed.t) (files : list File.t) : M Message.t :=
  fun P h =>
    (on_send P h channel content embed files,
     h ++ [Send (TextChannel.id channel) content embed files]).

(** [await ctx.send(embed=)] *)
Definition ctx_send (ctx : Context.t) (embed : Embed.t) : M Message.t :=
  channel_send (Context.channel ctx) None (Some embed) [].

(** [await message.edit(content=, embed=, files=)] *)
Definition message_edit (message : Message.t) (fields : Edit.t) : M unit :=
  fun P h =>
    (on_edit P h message fields, h ++ [EditMessage (Message.id message) fields]).

(** [await message.delete()] *)
Definition message_delete (message : Message.t) : M unit :=
  fun P h => (on_delete P h message, h ++ [DeleteMessage (Message.id message)]).

(** [await read_normal_message(bot, channel, author, flag)] *)
Definition read_normal_message (bot : Bot.t) (channel : TextChannel.t)
    (author : User) (flag : bool) : M (string * list File.t) :=
  fun P h =>
    (on_read_normal_message P h bot channel author flag,
     h ++ [ReadNormalMessage (TextChannel.id channel) author flag]).

(** [await read_complete_message(message)] *)
Definition read_complete_message (message : Message.t)
    : M (string * list File.t * option Embed.t) :=
  fun P h =>
    (on_read_complete_message P h message,
     h ++ [ReadCompleteMessage (Message.id message)]).

End Discord.

Declare Scope coroutine_scope.
Delimit Scope coroutine_scope with co.
Notation "'let*' x ':=' m 'in' k" := (Discord.bind m (fun x => k))
  (at level 10, x name, m at level 100, k at level 200) : coroutine_scope.
Notation "'let*' ' pat ':=' m 'in' k" :=
  (Discord.bind m (fun x => match x with pat => k end))
  (at level 10, pat pattern, m at level 100, k at level 200)
  : coroutine_scope.

(* ===================================================================== *)
(** * cogs/rules.py                                                        *)
(* ===================================================================== *)

Module Rules.
Import Translations Discord.
Local Open Scope coroutine_scope.

Module RulesCog.
Record t : Type := make
  { bot : Bot.t }.
End RulesCog.

(** The argument [color: Optional[Union[Color, str]]]. *)
Inductive ColorArg : Type :=
| Native (value : Colour)
| Str (s : string).

(** The two line feeds put between the lines of a status embed. *)
Definition nl2 : string := String Py.LF (String Py.LF EmptyString).

(** [except (HTTPException, Forbidden)]: the first class is the one of
    [http.client], which the module imports. *)
Definition HTTPException_or_Forbidden (e : Exception) : bool :=
  match e with
  | HTTPException | Forbidden => true
  | _ => false
  end.

(** [message.edit(embed=embed)] *)
Definition embed_only (embed : Embed.t) : Edit.t :=
  {| Edit.content := Omitted; Edit.embed := Passed (Some embed);
     Edit.files := Omitted |}.

Section Handlers.

(** The string table, and [get_colour] of [util]. *)
Variable translations : Translations.key -> string.
Variable get_colour : RulesCog.t -> Colour.

(** [Embed(title=translations.rule, colour=get_colour(self), description=)] *)
Definition rule_embed (self : RulesCog.t) (description : Translations.key)
    : Embed.t :=
  {| Embed.title := translations rule;
     Embed.colour := Some (get_colour self);
     Embed.description := translations description |}.

(** [Embed(title=title, description=content)] *)
Definition plain_embed (title content : string) : Embed.t :=
  {| Embed.title := title; Embed.colour := None;
     Embed.description := content |}.

(** [if color is not None: send_embed.colour = color] *)
Definition with_colour (embed : Embed.t) (color : option Colour) : Embed.t :=
  match color with
  | Some value => Embed.set_colour embed value
  | None => embed
  end.

(** The groups [send] and [edit]. *)
Definition send (self : RulesCog.t) (ctx : Context.t) : M unit :=
  match Context.invoked_subcommand ctx with
  | None => raise UserInputError
  | Some _ => ret tt
  end.

Definition edit (self : RulesCog.t) (ctx : Context.t) : M unit :=
  match Context.invoked_subcommand ctx with
  | None => raise UserInputError
  | Some _ => ret tt
  end.

Definition send_text (self : RulesCog.t) (ctx : Context.t)
    (channel : TextChannel.t) : M unit :=
  if negb (Permissions.send_messages
             (TextChannel.permissions_for channel
                (Guild.me (TextChannel.guild channel))))
  then raise (CommandError could_not_send_message)
  else
    let embed := rule_embed self send_message in
    let* msg := ctx_send ctx embed in
    let* '(content, files) :=
      read_normal_message (RulesCog.bot self) (Context.channel ctx)
        (Context.author ctx) true in
    try_except_else
      (channel_send channel (Some content) None files)
      HTTPException_or_Forbidden
      (raise (CommandError msg_could_not_be_sent))
      (fun _ =>
         let embed := Embed.add_description embed (nl2 +:+ translations msg_sent) in
         message_edit msg (embed_only embed)).

Definition send_embed (self : RulesCog.t) (ctx : Context.t)
    (channel : TextChannel.t) (color : option ColorArg) : M unit :=
  let* color :=
    match color with
    | Some (Str s) =>
        if negb (Py.re_match Py.color_pattern s)
        then raise (CommandError invalid_color)
        else
          match Py.int16 s with
          | Some value => ret (Some value)
          | None => raise ValueError
          end
    | Some (Native value) => ret (Some value)
    | None => ret None
    end in
  let permissions :=
    TextChannel.permissions_for channel (Guild.me (TextChannel.guild channel)) in
  if negb (Permissions.send_messages permissions)
  then raise (CommandError could_not_send_message)
  else if negb (Permissions.embed_links permissions)
  then raise (CommandError could_not_send_embed)
  else
    let embed := rule_embed self send_embed_title in
    let* msg := ctx_send ctx embed in
    let* '(title, _) :=
      read_normal_message (RulesCog.bot self) (Context.channel ctx)
        (Context.author ctx) true in
    if (256 <? String.length title)%nat
    then raise (CommandError title_too_long)
    else
      let embed :=
        Embed.add_description embed (nl2 +:+ translations send_embed_content) in
      let* _ := message_edit msg (embed_only embed) in
      let* '(content, _) :=
        read_normal_message (RulesCog.bot self) (Context.channel ctx)
          (Context.author ctx) true in
      let send_embed := with_colour (plain_embed title content) color in
      try_except_else
        (channel_send channel None (Some send_embed) [])
        HTTPException_or_Forbidden
        (raise (CommandError msg_could_not_be_sent))
        (fun _ =>
           let embed := Embed.add_description embed (nl2 +:+ translations msg_sent) in
           message_edit msg (embed_only embed)).

Definition send_copy (self : RulesCog.t) (ctx : Context.t)
    (channel : TextChannel.t) (message : Message.t) : M unit :=
  let* '(content, files, embed) := read_complete_message message in
  try_except_else
    (channel_send channel (Some content) embed files)
    HTTPException_or_Forbidden
    (raise (CommandError msg_could_not_be_sent))
    (fun _ =>
       let embed := rule_embed self msg_sent in
       let* _ := ctx_send ctx embed in
       ret tt).

Definition edit_text (self : RulesCog.t) (ctx : Context.t)
    (message : Message.t) : M unit :=
  if user_ne (Message.author message) (Bot.user (RulesCog.bot self))
  then raise (CommandError could_not_edit)
  else
    let embed := rule_embed self send_new_message in
    let* msg := ctx_send ctx embed in
    let* '(content, files) :=
      read_normal_message (RulesCog.bot self) (Context.channel ctx)
        (Context.author ctx) true in
    match files with
    | _ :: _ => raise (CommandError cannot_edit_files)
    | [] =>
        let* _ :=
          message_edit message
            {| Edit.content := Passed (Some content);
               Edit.embed := Passed None;
               Edit.files := Omitted |} in
        let embed := Embed.add_description embed (nl2 +:+ translations msg_edited) in
        message_edit msg (embed_only embed)
    end.

Definition edit_embed (self : RulesCog.t) (ctx : Context.t)
    (message : Message.t) (color : option ColorArg) : M unit :=
  if user_ne (Message.author message) (Bot.user (RulesCog.bot self))
  then raise (CommandError could_not_edit)
  else
    let* color :=
      match color with
      | Some (Str s) =>
          if negb (Py.re_match Py.color_pattern s)
          then raise (CommandError invalid_color)
          else
            match Py.int16 s with
            | Some value => ret (Some value)
            | None => raise ValueError
            end
      | Some (Native value) => ret (Some value)
      | None => ret None
      end in
    let embed := rule_embed self send_embed_title in
    let* msg := ctx_send ctx embed in
    let* '(title, _) :=
      read_normal_message (RulesCog.bot self) (Context.channel ctx)
        (Context.author ctx) true in
    if (256 <? String.length title)%nat
    then raise (CommandError title_too_long)
    else
      let embed :=
        Embed.add_description embed (nl2 +:+ translations send_embed_content) in
      let* _ := message_edit msg (embed_only embed) in
      let* '(content, _) :=
        read_normal_message (RulesCog.bot self) (Context.channel ctx)
          (Context.author ctx) true in
      let send_embed := with_colour (plain_embed title content) color in
      let* _ :=
        message_edit message
          {| Edit.content := Passed None;
             Edit.embed := Passed (Some send_embed);
             Edit.files := Passed [] |} in
      let embed := Embed.add_description embed (nl2 +:+ translations msg_edited) in
      message_edit msg (embed_only embed).

Definition edit_copy (self : RulesCog.t) (ctx : Context.t)
    (message source : Message.t) : M unit :=
  if user_ne (Message.author message) (Bot.user (RulesCog.bot self))
  then raise (CommandError could_not_edit)
  else
    let* '(content, files, embed) := read_complete_message source in
    match files with
    | _ :: _ => raise (CommandError cannot_edit_files)
    | [] =>
        let* _ :=
          message_edit message
            {| Edit.content := Passed (Some content);
               Edit.embed := Passed embed;
               Edit.files := Omitted |} in
        let embed := rule_embed self msg_edited in
        let* _ := ctx_send ctx embed in
        ret tt
    end.

Definition delete (self : RulesCog.t) (ctx : Context.t)
    (message : Message.t) : M unit :=
  match Message.guild message with
  | None => raise (CommandError cannot_delete_dm)
  | Some guild =>
      let channel := Message.channel message in
      let permissions := TextChannel.permissions_for channel (Guild.me guild) in
      if user_ne (Message.author message) (Bot.user (RulesCog.bot self))
         && negb (Permissions.manage_messages permissions)
      then raise (CommandError could_not_delete)
      else
        let* _ := message_delete message in
        let embed := rule_embed self msg_deleted in
        let* _ := ctx_send ctx embed in
        ret tt
  end.

End Handlers.

End Rules.

(* ===================================================================== *)
(** * models/mod.py                                                        *)
(* ===================================================================== *)

Module Mod.

(** A [datetime], as a number of microseconds. *)
Definition datetime : Type := Z.

(** A row object of the table [warn].  An attribute that was never set is
    [None]; [id] is the primary key, which the constructor leaves unset.
    The column [mod] is spelled [mod_]. *)
Module Warn.
Record t : Type := make
  { id : option Z;
    member : option Z;
    mod_ : option Z;
    timestamp : option datetime;
    reason : option string }.
End Warn.

(** What the session knows of an object: nothing, that it is to be
    inserted, or that it is stored. *)
Inductive ObjectState : Type :=
| Transient
| Pending
| Persistent.

(** Row objects are referred to by their address: the session and the
    caller of [create] share the object. *)
Definition ref : Type := nat.

Record World : Type := mkWorld
  { now : datetime;                              (* the clock *)
    objects : list (Warn.t * ObjectState);       (* row objects, by address *)
    sequence : Z }.                              (* next key of the table *)

(** Time passes. *)
Definition tick (t : datetime) (w : World) : World :=
  {| now := t; objects := objects w; sequence := sequence w |}.

(** [Warn(member=, mod=, timestamp=, reason=)]: a new object, which no
    session knows. *)
Definition Warn_new (member mod_ : Z) (timestamp : datetime) (reason : string)
    (w : World) : ref * World :=
  let row :=
    {| Warn.id := None; Warn.member := Some member; Warn.mod_ := Some mod_;
       Warn.timestamp := Some timestamp; Warn.reason := Some reason |} in
  (List.length (objects w),
   {| now := now w; objects := objects w ++ [(row, Transient)];
      sequence := sequence w |}).

Definition mark_pending (o : Warn.t * ObjectState) : Warn.t * ObjectState :=
  match o with
  | (row, Transient) => (row, Pending)
  | _ => o
  end.

(** Modelled from the spec: [db.add] of the module [database], which the
    factory calls.  It appends the record to the pending-write set of the
    shared persistence session: one pending insert is queued, nothing is
    committed.  An object the session already holds is not queued again. *)
Definition db_add (row : ref) (w : World) : World :=
  {| now := now w; objects := alter mark_pending row (objects w);
     sequence := sequence w |}.

(** [Warn.create] *)
Definition create (member mod_ : Z) (reason : string) (w : World)
    : ref * World :=
  let '(row, w) := Warn_new member mod_ (now w) reason w in
  let w := db_add row w in
  (row, w).

(** The attributes of the object at an address. *)
Definition deref (w : World) (r : ref) : option Warn.t :=
  fst <$> objects w !! r.

Definition is_pending (o : Warn.t * ObjectState) : bool :=
  match o with
  | (_, Pending) => true
  | _ => false
  end.

(** The inserts the session has queued, in the order of the objects. *)
Definition pending (w : World) : list Warn.t :=
  fst <$> filter (fun o => is_pending o = true) (objects w).

Definition set_id (row : Warn.t) (key : Z) : Warn.t :=
  {| Warn.id := Some key; Warn.member := Warn.member row;
     Warn.mod_ := Warn.mod_ row; Warn.timestamp := Warn.timestamp row;
     Warn.reason := Warn.reason row |}.

(** Modelled from the spec: the commit of the session, which the caller of
    the factory runs.  Storage inserts the pending records and assigns
    [id], an auto-incrementing integer, to each record that has none; an
    [id] is never reused. *)
Fixpoint flush (objs : list (Warn.t * ObjectState)) (key : Z)
    : list (Warn.t * ObjectState) * Z :=
  match objs with
  | [] => ([], key)
  | (row, Pending) :: objs' =>
      match Warn.id row with
      | None =>
          let '(objs'', key') := flush objs' (key + 1) in
          ((set_id row key, Persistent) :: objs'', key')
      | Some _ =>
          let '(objs'', key') := flush objs' key in
          ((row, Persistent) :: objs'', key')
      end
  | o :: objs' =>
      let '(objs'', key') := flush objs' key in
      (o :: objs'', key')
  end.

Definition commit (w : World) : World :=
  let '(objs, key) := flush (objects w) (sequence w) in
  {| now := now w; objects := objs; sequence := key |}.

End Mod.

(* ===================================================================== *)
(** * What a run shows, and a guild to run the handlers in                 *)
(* ===================================================================== *)

Module Observe.
Import Discord.

(** The call edits the message. *)
Definition edits (message : Z) (c : Call) : bool :=
  match c with
  | EditMessage m _ => (m =? message)%Z
  | _ => false
  end.

(** The call of [ctx.send(embed=embed)]. *)
Definition status_call (ctx : Context.t) (embed : Embed.t) : Call :=
  Send (TextChannel.id (Context.channel ctx)) None (Some embed) [].

(** The call that prompts the invoker. *)
Definition prompt_call (ctx : Context.t) : Call :=
  ReadNormalMessage (TextChannel.id (Context.channel ctx)) (Context.author ctx)
    true.

(** The text of the answer to a prompt, without the files. *)
Definition prompt_text (r : Result (string * list File.t)) : Result string :=
  match r with
  | Ok (text, _) => Ok text
  | Raise e => Raise e
  end.

(** Two platforms that answer every call alike, except for the files that
    come with the answer to a prompt. *)
Record same_but_prompt_files (P Q : Platform) : Prop :=
  { same_send : forall h channel content embed files,
      on_send P h channel content embed files
      = on_send Q h channel content embed files;
    same_edit : forall h message fields,
      on_edit P h message fields = on_edit Q h message fields;
    same_delete : forall h message,
      on_delete P h message = on_delete Q h message;
    same_prompt_text : forall h bot channel author flag,
      prompt_text (on_read_normal_message P h bot channel author flag)
      = prompt_text (on_read_normal_message Q h bot channel author flag);
    same_read_complete : forall h message,
      on_read_complete_message P h message
      = on_read_complete_message Q h message }.

(** The calls a run made, given the calls made before it and after it. *)
Definition calls_since (h h' : list Call) : list Call :=
  drop (List.length h) h'.

(** The call deletes a message. *)
Definition deletes (c : Call) : bool :=
  match c with
  | DeleteMessage _ => true
  | _ => false
  end.

(** The call prompts the invoker. *)
Definition prompts (c : Call) : bool :=
  match c with
  | ReadNormalMessage _ _ _ => true
  | _ => false
  end.

(** The colour argument is a string the pattern does not match. *)
Definition unmatched (color : option Rules.ColorArg) : bool :=
  match color with
  | Some (Rules.Str s) => negb (Py.re_match Py.color_pattern s)
  | _ => false
  end.

(** The colour a colour argument stands for, when it stands for one. *)
Definition resolved (color : option Rules.ColorArg) : option Colour :=
  match color with
  | Some (Rules.Str s) => Py.int16 s
  | Some (Rules.Native value) => Some value
  | None => None
  end.

(** A coroutine that runs alike against two platforms. *)
Definition agrees {A} (P Q : Platform) (m : M A) : Prop :=
  forall h, m P h = m Q h.

End Observe.

Module Scenario.
Import Translations Discord Rules.

Definition table (k : Translations.key) : string :=
  match k with
  | rule => "Rules"
  | send_message => "Send the message"
  | send_embed_title => "Send the title"
  | send_embed_content => "Send the content"
  | send_new_message => "Send the new message"
  | msg_sent => "Message sent"
  | msg_edited => "Message edited"
  | msg_deleted => "Message deleted"
  | could_not_send_message => "Could not send message"
  | could_not_send_embed => "Could not send embed"
  | msg_could_not_be_sent => "Message could not be sent"
  | invalid_color => "Invalid color"
  | title_too_long => "Title too long"
  | could_not_edit => "Could not edit"
  | cannot_edit_files => "Cannot edit files"
  | cannot_delete_dm => "Cannot delete DM"
  | could_not_delete => "Could not delete"
  end.

Definition colour (_ : RulesCog.t) : Colour := 2137311.

Definition bot_user : User := 99.
Definition moderator : User := 1.
Definition member : User := 2.

Definition guild : Guild.t := {| Guild.id := 10; Guild.me := bot_user |}.

Definition everything : Permissions.t :=
  {| Permissions.send_messages := true; Permissions.embed_links := true;
     Permissions.manage_messages := true |}.

Definition send_only : Permissions.t :=
  {| Permissions.send_messages := true; Permissions.embed_links := true;
     Permissions.manage_messages := false |}.

Definition nothing : Permissions.t :=
  {| Permissions.send_messages := false; Permissions.embed_links := false;
     Permissions.manage_messages := false |}.

(** A channel where the bot may do everything. *)
Definition rules_channel : TextChannel.t :=
  {| TextChannel.id := 20; TextChannel.guild := guild;
     TextChannel.permissions_for := fun _ => everything |}.

(** A channel where the members manage the messages and the bot does
    not. *)
Definition staff_channel : TextChannel.t :=
  {| TextChannel.id := 21; TextChannel.guild := guild;
     TextChannel.permissions_for :=
       fun u => if (u =? bot_user)%Z then send_only else everything |}.

(** A channel where the bot may not write. *)
Definition closed_channel : TextChannel.t :=
  {| TextChannel.id := 22; TextChannel.guild := guild;
     TextChannel.permissions_for :=
       fun u => if (u =? bot_user)%Z then nothing else everything |}.

Definition bot : Bot.t := {| Bot.user := bot_user |}.
Definition cog : RulesCog.t := {| RulesCog.bot := bot |}.

Definition ctx : Context.t :=
  {| Context.channel := rules_channel; Context.author := moderator;
     Context.invoked_subcommand := Some "embed" |}.

(** A message of the bot, and messages of a member. *)
Definition own_message : Message.t :=
  {| Message.id := 30; Message.author := bot_user;
     Message.guild := Some guild; Message.channel := rules_channel |}.

Definition member_message : Message.t :=
  {| Message.id := 31; Message.author := member;
     Message.guild := Some guild; Message.channel := rules_channel |}.

Definition staff_message : Message.t :=
  {| Message.id := 32; Message.author := member;
     Message.guild := Some guild; Message.channel := staff_channel |}.

Definition picture : File.t := {| File.filename := "rules.png"; File.data := "" |}.

(** A platform that accepts every call; the invoker answers every prompt
    with the same text and the given files. *)
Definition accepting (files : list File.t) : Platform :=
  {| on_send := fun h channel _ _ _ =>
       Ok {| Message.id := 1000 + Z.of_nat (List.length h);
             Message.author := bot_user;
             Message.guild := Some (TextChannel.guild channel);
             Message.channel := channel |};
     on_edit := fun _ _ _ => Ok tt;
     on_delete := fun _ _ => Ok tt;
     on_read_normal_message := fun _ _ _ _ _ => Ok ("Be kind", files);
     on_read_complete_message := fun _ _ => Ok ("Be kind", [], None) |}.

(** The same platform, except that it refuses to send. *)
Definition read_only : Platform :=
  {| on_send := fun _ _ _ _ _ => Raise Forbidden;
     on_edit := fun _ _ _ => Ok tt;
     on_delete := fun _ _ => Ok tt;
     on_read_normal_message := fun _ _ _ _ _ => Ok ("Be kind", []);
     on_read_complete_message := fun _ _ => Ok ("Be kind", [], None) |}.

(** A channel where the bot may send messages and not embed links. *)
Definition text_channel : TextChannel.t :=
  {| TextChannel.id := 23; TextChannel.guild := guild;
     TextChannel.permissions_for :=
       fun _ => {| Permissions.send_messages := true;
                   Permissions.embed_links := false;
                   Permissions.manage_messages := false |} |}.

(** A message of a private channel. *)
Definition private_message : Message.t :=
  {| Message.id := 33; Message.author := member;
     Message.guild := None; Message.channel := rules_channel |}.

(** An invocation of a group without a subcommand. *)
Definition bare_ctx : Context.t :=
  {| Context.channel := rules_channel; Context.author := moderator;
     Context.invoked_subcommand := None |}.

(** A title of 257 characters. *)
Definition long_title : string :=
  string_of_list_ascii (repeat "a"%char 257).

Definition rules_text : Embed.t :=
  {| Embed.title := "Rules"; Embed.colour := None;
     Embed.description := "Be kind" |}.

(** A platform that accepts every call but the sending to the staff
    channel, which it refuses with [e].  The invoker answers the prompts
    with [text] and [files]; a message read in full has the same text and
    files, and an embed. *)
Definition platform (text : string) (files : list File.t) (e : Exception)
    : Platform :=
  {| on_send := fun h channel _ _ _ =>
       if (TextChannel.id channel =? TextChannel.id staff_channel)%Z
       then Raise e
       else Ok {| Message.id := 1000 + Z.of_nat (List.length h);
                  Message.author := bot_user;
                  Message.guild := Some (TextChannel.guild channel);
                  Message.channel := channel |};
     on_edit := fun _ _ _ => Ok tt;
     on_delete := fun _ _ => Ok tt;
     on_read_normal_message := fun _ _ _ _ _ => Ok (text, files);
     on_read_complete_message := fun _ _ => Ok (text, files, Some rules_text) |}.

(** A platform on which the invoker never answers. *)
Definition silent : Platform :=
  {| on_send := fun h channel _ _ _ =>
       Ok {| Message.id := 1000 + Z.of_nat (List.length h);
             Message.author := bot_user;
             Message.guild := Some (TextChannel.guild channel);
             Message.channel := channel |};
     on_edit := fun _ _ _ => Ok tt;
     on_delete := fun _ _ => Ok tt;
     on_read_normal_message := fun _ _ _ _ _ =>
       Raise (OtherException "TimeoutError");
     on_read_complete_message := fun _ _ =>
       Raise (OtherException "TimeoutError") |}.

(** A caller that records the same warning twice; the clock shows [t]
    at the second call. *)
Definition warn_twice (member mod_ : Z) (reason : string) (t : Mod.datetime)
    (w : Mod.World) : (Mod.ref * Mod.ref) * Mod.World :=
  let '(first, w) := Mod.create member mod_ reason w in
  let '(second, w) := Mod.create member mod_ reason (Mod.tick t w) in
  ((first, second), w).

(** A session with one stored record and one record that waits. *)
Definition busy : Mod.World :=
  {| Mod.now := 1600000000000000;
     Mod.objects :=
       [ ({| Mod.Warn.id := Some 1; Mod.Warn.member := Some 5;
             Mod.Warn.mod_ := Some 7; Mod.Warn.timestamp := Some 1500000000000000;
             Mod.Warn.reason := Some "caps" |}, Mod.Persistent);
         ({| Mod.Warn.id := None; Mod.Warn.member := Some 6;
             Mod.Warn.mod_ := Some 7; Mod.Warn.timestamp := Some 1500000000000001;
             Mod.Warn.reason := Some "links" |}, Mod.Pending) ];
     Mod.sequence := 2 |}.

End Scenario.

(* ===================================================================== *)
(** * Properties                                                           *)
(* ===================================================================== *)

Section PyFacts.
Import Py.

Example re_match_examples :
  re_match color_pattern "ff0000" = true /\
  re_match color_pattern "#fff" = false /\
  re_match color_pattern "12345" = false /\
  re_match color_pattern "zzzzzz" = false /\
  re_match color_pattern "ff00001" = false /\
  re_match color_pattern "0xff00" = false.
Proof. repeat split; reflexivity. Qed.

Example int16_examples :
  int16 "ff0000" = Some 16711680 /\
  int16 "0x_ff" = Some 255 /\
  int16 "-0Xf_f" = Some (-255) /\
  int16 "0x" = None /\
  int16 "f__f" = None /\
  int16 " 0b12 " = Some 2834 /\
  int16 "" = None.
Proof. repeat split; reflexivity. Qed.

(** What belonging to [[0-9a-fA-F]] excludes. *)
Lemma hex_class_char c :
  hex_class c = true ->
  is_space c = false /\ c <> "+"%char /\ c <> "-"%char /\ c <> "_"%char /\
  c <> "x"%char /\ c <> "X"%char /\ c <> LF /\
  exists d, hex_val c = Some d /\ 0 <= d < 16.
Proof.
  destruct c as [[] [] [] [] [] [] [] []]; intros Hc;
    vm_compute in Hc; try discriminate Hc; clear Hc;
    (split; [reflexivity |]);
    do 6 (split; [intros E; discriminate E |]);
    eexists; (split; [vm_compute; reflexivity | lia]).
Qed.

Lemma length_list_ascii_of_string s :
  List.length (list_ascii_of_string s) = String.length s.
Proof. induction s as [|c s IH]; simpl; [reflexivity | now rewrite IH]. Qed.

Lemma lstrip_no_space c cs : is_space c = false -> lstrip (c :: cs) = c :: cs.
Proof. intros H. simpl. now rewrite H. Qed.

Lemma lstrip_hex cs : forallb hex_class cs = true -> lstrip cs = cs.
Proof.
  destruct cs as [|c cs]; [reflexivity |]. simpl.
  intros [Hc _]%andb_prop. now rewrite (proj1 (hex_class_char c Hc)).
Qed.

Lemma forallb_rev {A} (f : A -> bool) l :
  forallb f l = true -> forallb f (rev l) = true.
Proof.
  rewrite !forallb_forall. intros H x Hx. apply H. now apply in_rev.
Qed.

(** Stripping leaves a string of hexadecimal digits alone. *)
Lemma strip_hex cs : forallb hex_class cs = true -> strip cs = cs.
Proof.
  intros H. unfold strip. rewrite (lstrip_hex cs H).
  rewrite (lstrip_hex (rev cs) (forallb_rev _ _ H)). apply rev_involutive.
Qed.

(** The digit loop computes the positional value, by Horner's rule. *)
Lemma digits16_hex cs :
  forallb hex_class cs = true ->
  forall acc prev, prev = true \/ cs <> [] ->
  digits16 acc prev cs
  = Some (acc * 16 ^ Z.of_nat (List.length cs) + positional16 cs).
Proof.
  induction cs as [|c cs IH]; intros Hall acc prev Hne.
  - destruct Hne as [-> | Hne]; [| congruence]. simpl. f_equal. lia.
  - simpl in Hall. apply andb_prop in Hall as [Hc Hcs].
    destruct (hex_class_char c Hc) as (_ & _ & _ & Hu & _ & _ & _ & d & Hd & _).
    cbn [digits16 positional16 List.length].
    rewrite bool_decide_eq_false_2 by exact Hu.
    rewrite Hd. rewrite (IH Hcs _ true) by now left.
    cbn [default]. f_equal.
    rewrite Nat2Z.inj_succ, Z.pow_succ_r by lia. unfold id.
    generalize (16 ^ Z.of_nat (List.length cs)). intros p. ring.
Qed.

Lemma unsigned16_hex cs :
  forallb hex_class cs = true -> cs <> [] ->
  unsigned16 cs = Some (positional16 cs).
Proof.
  intros Hall Hne.
  assert (Hd : digits16 0 false cs = Some (positional16 cs)).
  { rewrite (digits16_hex cs Hall) by now right. reflexivity. }
  destruct cs as [|c [|x cs]]; try exact Hd.
  unfold unsigned16.
  simpl in Hall. apply andb_prop in Hall as [_ [Hx _]%andb_prop].
  destruct (hex_class_char x Hx) as (_ & _ & _ & _ & Hx1 & Hx2 & _).
  rewrite (bool_decide_eq_false_2 _ Hx1), (bool_decide_eq_false_2 _ Hx2).
  rewrite andb_false_r. exact Hd.
Qed.

(** [int(s, 16)] of digits only is their positional value. *)
Lemma int16_hex s :
  forallb hex_class (list_ascii_of_string s) = true -> s <> "" ->
  int16 s = Some (base16_value s).
Proof.
  intros Hall Hne. unfold int16, base16_value.
  rewrite (strip_hex _ Hall).
  destruct s as [|c s]; [congruence |].
  cbn [list_ascii_of_string] in *.
  pose proof Hall as Hall'. simpl in Hall'.
  apply andb_prop in Hall' as [Hc _].
  destruct (hex_class_char c Hc) as (_ & Hp & Hm & _).
  rewrite (bool_decide_eq_false_2 _ Hp), (bool_decide_eq_false_2 _ Hm).
  now apply unsigned16_hex.
Qed.

Lemma int16_six_hex_digits s :
  six_hex_digits s = true -> int16 s = Some (base16_value s).
Proof.
  unfold six_hex_digits. intros [Hlen Hall]%andb_prop.
  apply int16_hex; [exact Hall |].
  intros ->. discriminate Hlen.
Qed.

(** [eat] splits the subject into [n] characters of the class and the
    rest. *)
Lemma eat_Some cls n s rest :
  eat cls n s = Some rest <->
  exists pre, s = pre +:+ rest /\ String.length pre = n /\
              forallb cls (list_ascii_of_string pre) = true.
Proof.
  revert s. induction n as [|n IH]; intros s; simpl.
  - split.
    + intros [= ->]. exists "". auto.
    + intros (pre & -> & Hlen & _). destruct pre; [reflexivity | discriminate].
  - destruct s as [|c s].
    + split; [discriminate |].
      intros ([|a pre] & E & Hlen & _); discriminate.
    + destruct (cls c) eqn:Hc.
      * rewrite IH. split.
        -- intros (pre & -> & Hlen & Hall). exists (String c pre).
           simpl. rewrite Hc, Hlen, Hall. auto.
        -- intros ([|a pre] & E & Hlen & Hall); [discriminate |].
           simpl in E, Hlen, Hall. injection E as <- ->.
           apply andb_prop in Hall as [_ Hall].
           exists pre. auto.
      * split; [discriminate |].
        intros ([|a pre] & E & Hlen & Hall); [discriminate |].
        simpl in E, Hall. injection E as <- ->.
        rewrite Hc in Hall. discriminate.
Qed.

Lemma at_dollar_true s : at_dollar s = true <-> s = "" \/ s = String LF "".
Proof.
  destruct s as [|c [|c' s]]; simpl.
  - tauto.
  - rewrite bool_decide_eq_true. split.
    + intros ->. now right.
    + intros [E | E]; [discriminate | now injection E].
  - split; [discriminate | intros [E | E]; discriminate].
Qed.

Lemma append_empty_r s : s +:+ "" = s.
Proof.
  induction s as [|c s IH]; [reflexivity |].
  change (String c s +:+ "") with (String c (s +:+ "")). now rewrite IH.
Qed.

(** The strings the pattern matches: six digits, or six digits and a line
    feed. *)
Lemma re_match_color_pattern s :
  re_match color_pattern s = true <->
  six_hex_digits s = true \/
  exists s0, s = s0 +:+ String LF "" /\ six_hex_digits s0 = true.
Proof.
  unfold re_match, color_pattern, six_hex_digits. cbn [match_here Nat.eqb andb].
  split.
  - destruct (eat hex_class 6 s) as [rest|] eqn:E; [| discriminate].
    rewrite andb_true_r, at_dollar_true.
    apply eat_Some in E as (pre & -> & Hlen & Hall).
    intros [-> | ->].
    + left. rewrite append_empty_r, Hlen, Hall. reflexivity.
    + right. exists pre. rewrite Hlen, Hall. auto.
  - intros [[Hlen Hall]%andb_prop | (s0 & -> & [Hlen Hall]%andb_prop)];
      apply Nat.eqb_eq in Hlen.
    + assert (E : eat hex_class 6 s = Some "").
      { apply eat_Some. exists s. rewrite append_empty_r. auto. }
      rewrite E. reflexivity.
    + assert (E : eat hex_class 6 (s0 +:+ String LF "") = Some (String LF "")).
      { apply eat_Some. exists s0. auto. }
      rewrite E. reflexivity.
Qed.

Lemma list_ascii_of_string_append s t :
  list_ascii_of_string (s +:+ t)
  = list_ascii_of_string s ++ list_ascii_of_string t.
Proof.
  induction s as [|c s IH]; [reflexivity |].
  change (String c s +:+ t) with (String c (s +:+ t)). simpl. now rewrite IH.
Qed.

(** Away from a final line feed the pattern is the six digits. *)
Lemma re_match_no_LF s :
  ends_with_LF s = false ->
  re_match color_pattern s = six_hex_digits s.
Proof.
  intros Hlf.
  destruct (six_hex_digits s) eqn:H6.
  - apply re_match_color_pattern. now left.
  - destruct (re_match color_pattern s) eqn:Hm; [| reflexivity].
    apply re_match_color_pattern in Hm as [Hm | (s0 & -> & _)]; [congruence |].
    unfold ends_with_LF in Hlf.
    rewrite list_ascii_of_string_append, rev_app_distr in Hlf.
    discriminate Hlf.
Qed.

(** Stripping removes the line feed that follows the digits. *)
Lemma strip_hex_LF cs :
  forallb hex_class cs = true -> cs <> [] -> strip (cs ++ [LF]) = cs.
Proof.
  intros Hall Hne. unfold strip.
  assert (E : lstrip (cs ++ [LF]) = cs ++ [LF]).
  { destruct cs as [|c cs]; [congruence |].
    simpl in Hall. apply andb_prop in Hall as [Hc _].
    apply lstrip_no_space, (hex_class_char c Hc). }
  rewrite E, rev_app_distr.
  change (rev [LF] ++ rev cs) with (LF :: rev cs).
  change (lstrip (LF :: rev cs)) with (lstrip (rev cs)).
  rewrite lstrip_hex by now apply forallb_rev.
  apply rev_involutive.
Qed.

(** A string the pattern matches is a number in base 16: the value of its
    six digits. *)
Lemma re_match_int16 s :
  re_match color_pattern s = true ->
  exists s0, six_hex_digits s0 = true /\ int16 s = Some (base16_value s0).
Proof.
  intros [H6 | (s0 & -> & H6)]%re_match_color_pattern.
  - exists s. split; [exact H6 | exact (int16_six_hex_digits s H6)].
  - exists s0. split; [exact H6 |].
    pose proof (int16_six_hex_digits s0 H6) as E.
    unfold six_hex_digits in H6. apply andb_prop in H6 as [Hlen Hall].
    unfold int16 in *. rewrite (strip_hex _ Hall) in E.
    rewrite list_ascii_of_string_append.
    change (list_ascii_of_string (String LF "")) with [LF].
    rewrite strip_hex_LF; [exact E | exact Hall |].
    destruct s0; [discriminate Hlen | discriminate].
Qed.

End PyFacts.

(* ===================================================================== *)
(** * The handlers of cogs/rules.py                                        *)
(* ===================================================================== *)

Section RulesFacts.
Import Translations Discord Rules Observe.

Variable translations : Translations.key -> string.
Variable get_colour : RulesCog.t -> Colour.

Lemma user_ne_true a b : user_ne a b = true <-> a <> b.
Proof. unfold user_ne. rewrite negb_true_iff. apply Z.eqb_neq. Qed.

Lemma user_ne_false a b : user_ne a b = false <-> a = b.
Proof. unfold user_ne. rewrite negb_false_iff. apply Z.eqb_eq. Qed.

(** C5.  [send text] to a channel where the bot lacks the permission to
    send messages fails with [could_not_send_message] and makes no call:
    no status embed is posted and the invoker is not prompted. *)
Theorem send_text_without_send_permission self ctx channel P h :
  Permissions.send_messages
    (TextChannel.permissions_for channel (Guild.me (TextChannel.guild channel)))
  = false ->
  send_text translations get_colour self ctx channel P h
  = (Raise (CommandError could_not_send_message), h).
Proof. intros Hperm. unfold send_text. rewrite Hperm. reflexivity. Qed.

(** C2.  [edit text], [edit embed] and [edit copy] on a message the bot did
    not write fail with [could_not_edit], whoever the caller is, and make
    no call: the message is not edited. *)
Theorem edit_of_foreign_message self ctx message P h :
  Message.author message <> Bot.user (RulesCog.bot self) ->
  edit_text translations get_colour self ctx message P h
  = (Raise (CommandError could_not_edit), h) /\
  (forall color,
     edit_embed translations get_colour self ctx message color P h
     = (Raise (CommandError could_not_edit), h)) /\
  (forall source,
     edit_copy translations get_colour self ctx message source P h
     = (Raise (CommandError could_not_edit), h)).
Proof.
  intros Hne%user_ne_true.
  unfold edit_text, edit_embed, edit_copy. rewrite Hne. auto.
Qed.

(** C9.  In [edit embed] the author of the message is checked before the
    colour: on a message the bot did not write the command fails with
    [could_not_edit] whatever the colour argument is, a string that is not
    a colour included, and it does not fail with [invalid_color]. *)
Theorem edit_embed_author_before_color self ctx message color P h :
  Message.author message <> Bot.user (RulesCog.bot self) ->
  edit_embed translations get_colour self ctx message color P h
  = (Raise (CommandError could_not_edit), h) /\
  fst (edit_embed translations get_colour self ctx message color P h)
  <> Raise (CommandError invalid_color).
Proof.
  intros Hne%user_ne_true.
  unfold edit_embed. rewrite Hne. split; [reflexivity | discriminate].
Qed.

(** C6.  [edit text] on a message of the bot, when the status embed was
    posted and the answer to the prompt comes with files: the command
    fails with [cannot_edit_files]; the calls it made are the status embed
    and the prompt, and neither edits the message. *)
Theorem edit_text_with_files self ctx message P h msg content files :
  Message.author message = Bot.user (RulesCog.bot self) ->
  on_send P h (Context.channel ctx) None
    (Some (rule_embed translations get_colour self send_new_message)) []
  = Ok msg ->
  on_read_normal_message P
    (h ++ [status_call ctx
             (rule_embed translations get_colour self send_new_message)])
    (RulesCog.bot self) (Context.channel ctx) (Context.author ctx) true
  = Ok (content, files) ->
  files <> [] ->
  edit_text translations get_colour self ctx message P h
  = (Raise (CommandError cannot_edit_files),
     h ++ [status_call ctx
             (rule_embed translations get_colour self send_new_message);
           prompt_call ctx]) /\
  existsb (edits (Message.id message))
    [status_call ctx (rule_embed translations get_colour self send_new_message);
     prompt_call ctx] = false.
Proof.
  intros Hown%user_ne_false Hsend Hread Hfiles.
  split; [| reflexivity].
  unfold edit_text. rewrite Hown.
  unfold bind, ctx_send, channel_send, read_normal_message.
  rewrite Hsend. fold (status_call ctx
    (rule_embed translations get_colour self send_new_message)).
  rewrite Hread.
  destruct files as [|f files]; [congruence |].
  rewrite <- app_assoc. reflexivity.
Qed.

(** C1, as the handler has it.  On a message of a guild, [delete] compares
    the author of the message with the bot and reads the permissions of the
    bot itself in the channel of the message; the permissions of the
    invoker are not read.
    - The author is not the bot and the bot may not manage messages there:
      the command fails with [could_not_delete] and makes no call.
    - Otherwise the deletion is requested.  When the platform refuses it,
      its exception ends the command; when the platform accepts it, the
      success embed is sent to the channel of the invocation, and the
      command succeeds when that is accepted too. *)
Theorem delete_checks_author_and_bot self ctx message guild P h :
  Message.guild message = Some guild ->
  (Message.author message <> Bot.user (RulesCog.bot self) ->
   Permissions.manage_messages
     (TextChannel.permissions_for (Message.channel message) (Guild.me guild))
   = false ->
   delete translations get_colour self ctx message P h
   = (Raise (CommandError could_not_delete), h)) /\
  (Message.author message = Bot.user (RulesCog.bot self) \/
   Permissions.manage_messages
     (TextChannel.permissions_for (Message.channel message) (Guild.me guild))
   = true ->
   (forall e,
      on_delete P h message = Raise e ->
      delete translations get_colour self ctx message P h
      = (Raise e, h ++ [DeleteMessage (Message.id message)])) /\
   (on_delete P h message = Ok tt ->
    (forall e,
       on_send P (h ++ [DeleteMessage (Message.id message)])
         (Context.channel ctx) None
         (Some (rule_embed translations get_colour self msg_deleted)) []
       = Raise e ->
       delete translations get_colour self ctx message P h
       = (Raise e,
          h ++ [DeleteMessage (Message.id message);
                status_call ctx
                  (rule_embed translations get_colour self msg_deleted)])) /\
    (forall msg,
       on_send P (h ++ [DeleteMessage (Message.id message)])
         (Context.channel ctx) None
         (Some (rule_embed translations get_colour self msg_deleted)) []
       = Ok msg ->
       delete translations get_colour self ctx message P h
       = (Ok tt,
          h ++ [DeleteMessage (Message.id message);
                status_call ctx
                  (rule_embed translations get_colour self msg_deleted)])))).
Proof.
  intros Hguild. unfold delete. rewrite Hguild. split.
  - intros Hne%user_ne_true Hperm. rewrite Hne, Hperm. reflexivity.
  - intros Hok.
    assert (Hcond :
      user_ne (Message.author message) (Bot.user (RulesCog.bot self))
      && negb (Permissions.manage_messages
                 (TextChannel.permissions_for (Message.channel message)
                    (Guild.me guild))) = false).
    { destruct Hok as [Hown%user_ne_false | Hperm].
      - rewrite Hown. reflexivity.
      - rewrite Hperm. apply andb_false_r. }
    rewrite Hcond.
    unfold bind, message_delete, ctx_send, channel_send, ret, status_call.
    split; [intros e He; rewrite He; reflexivity |].
    intros Hdel. rewrite Hdel.
    split; intros x Hx; rewrite Hx, <- app_assoc; reflexivity.
Qed.

(** ** The colour argument *)

Lemma send_embed_matched self ctx channel s v P h :
  Py.re_match Py.color_pattern s = true ->
  Py.int16 s = Some v ->
  send_embed translations get_colour self ctx channel (Some (Str s)) P h
  = send_embed translations get_colour self ctx channel (Some (Native v)) P h.
Proof. intros Hm Hv. unfold send_embed. rewrite Hm, Hv. reflexivity. Qed.

Lemma edit_embed_matched self ctx message s v P h :
  Py.re_match Py.color_pattern s = true ->
  Py.int16 s = Some v ->
  edit_embed translations get_colour self ctx message (Some (Str s)) P h
  = edit_embed translations get_colour self ctx message (Some (Native v)) P h.
Proof. intros Hm Hv. unfold edit_embed. rewrite Hm, Hv. reflexivity. Qed.

Lemma send_embed_unmatched self ctx channel s P h :
  Py.re_match Py.color_pattern s = false ->
  send_embed translations get_colour self ctx channel (Some (Str s)) P h
  = (Raise (CommandError invalid_color), h).
Proof. intros Hm. unfold send_embed. rewrite Hm. reflexivity. Qed.

Lemma edit_embed_unmatched self ctx message s P h :
  Message.author message = Bot.user (RulesCog.bot self) ->
  Py.re_match Py.color_pattern s = false ->
  edit_embed translations get_colour self ctx message (Some (Str s)) P h
  = (Raise (CommandError invalid_color), h).
Proof.
  intros Hown%user_ne_false Hm. unfold edit_embed. rewrite Hown, Hm.
  reflexivity.
Qed.

Lemma six_hex_digits_matched s :
  Py.six_hex_digits s = true -> Py.re_match Py.color_pattern s = true.
Proof. intros H. apply re_match_color_pattern. now left. Qed.

(** C3, as the handlers have it.  For a string that does not end with a
    line feed, given as the colour argument: [send embed], and [edit embed]
    on a message of the bot, go on as with the colour of that value when
    the string is six hexadecimal digits, and fail with [invalid_color]
    without any call when it is not.  ([edit embed] on a message of another
    author fails with [could_not_edit] before it looks at the colour.) *)
Theorem color_string_checked self ctx s P h :
  Py.ends_with_LF s = false ->
  (forall channel,
     if Py.six_hex_digits s
     then send_embed translations get_colour self ctx channel
            (Some (Str s)) P h
          = send_embed translations get_colour self ctx channel
              (Some (Native (Py.base16_value s))) P h
     else send_embed translations get_colour self ctx channel
            (Some (Str s)) P h
          = (Raise (CommandError invalid_color), h)) /\
  (forall message,
     Message.author message = Bot.user (RulesCog.bot self) ->
     if Py.six_hex_digits s
     then edit_embed translations get_colour self ctx message
            (Some (Str s)) P h
          = edit_embed translations get_colour self ctx message
              (Some (Native (Py.base16_value s))) P h
     else edit_embed translations get_colour self ctx message
            (Some (Str s)) P h
          = (Raise (CommandError invalid_color), h)).
Proof.
  intros Hlf. pose proof (re_match_no_LF s Hlf) as Hm.
  destruct (Py.six_hex_digits s) eqn:H6; split; intros.
  - apply send_embed_matched; [exact Hm | now apply int16_six_hex_digits].
  - apply edit_embed_matched; [exact Hm | now apply int16_six_hex_digits].
  - now apply send_embed_unmatched.
  - now apply edit_embed_unmatched.
Qed.

(** The embed [send embed] posts carries the colour it was given. *)
Lemma send_embed_posts_colour self ctx channel v P h :
  fst (send_embed translations get_colour self ctx channel
         (Some (Native v)) P h) = Ok tt ->
  exists title content calls,
    snd (send_embed translations get_colour self ctx channel
           (Some (Native v)) P h) = h ++ calls /\
    In (Send (TextChannel.id channel) None
          (Some {| Embed.title := title; Embed.colour := Some v;
                   Embed.description := content |}) []) calls.
Proof.
  unfold send_embed, bind, try_except_else, ret, raise, ctx_send, channel_send,
    read_normal_message, message_edit.
  repeat match goal with
         | |- context [match ?x with _ => _ end] =>
             destruct x eqn:?; cbn [fst snd]; try discriminate
         end.
  intros _. do 3 eexists. split.
  - rewrite <- !app_assoc. reflexivity.
  - cbn. auto 10.
Qed.

(** The embed [edit embed] puts in the message carries the colour it was
    given. *)
Lemma edit_embed_puts_colour self ctx message v P h :
  fst (edit_embed translations get_colour self ctx message
         (Some (Native v)) P h) = Ok tt ->
  exists title content calls,
    snd (edit_embed translations get_colour self ctx message
           (Some (Native v)) P h) = h ++ calls /\
    In (EditMessage (Message.id message)
          {| Edit.content := Passed None;
             Edit.embed :=
               Passed (Some {| Embed.title := title; Embed.colour := Some v;
                               Embed.description := content |});
             Edit.files := Passed [] |}) calls.
Proof.
  unfold edit_embed, bind, try_except_else, ret, raise, ctx_send, channel_send,
    read_normal_message, message_edit.
  repeat match goal with
         | |- context [match ?x with _ => _ end] =>
             destruct x eqn:?; cbn [fst snd]; try discriminate
         end.
  intros _. do 3 eexists. split.
  - rewrite <- !app_assoc. reflexivity.
  - cbn. auto 10.
Qed.

(** C4.  A string of six hexadecimal digits given as the colour argument
    stands for its value in base 16: [int(s, 16)] is that value, [send
    embed] and [edit embed] run as with the colour of that value, and when
    they succeed the embed they posted, or put in the message, has that
    colour. *)
Theorem hex_string_color_value self ctx s :
  Py.six_hex_digits s = true ->
  Py.int16 s = Some (Py.base16_value s) /\
  (forall channel P h,
     send_embed translations get_colour self ctx channel (Some (Str s)) P h
     = send_embed translations get_colour self ctx channel
         (Some (Native (Py.base16_value s))) P h /\
     (fst (send_embed translations get_colour self ctx channel
             (Some (Str s)) P h) = Ok tt ->
      exists title content calls,
        snd (send_embed translations get_colour self ctx channel
               (Some (Str s)) P h) = h ++ calls /\
        In (Send (TextChannel.id channel) None
              (Some {| Embed.title := title;
                       Embed.colour := Some (Py.base16_value s);
                       Embed.description := content |}) []) calls)) /\
  (forall message P h,
     edit_embed translations get_colour self ctx message (Some (Str s)) P h
     = edit_embed translations get_colour self ctx message
         (Some (Native (Py.base16_value s))) P h /\
     (fst (edit_embed translations get_colour self ctx message
             (Some (Str s)) P h) = Ok tt ->
      exists title content calls,
        snd (edit_embed translations get_colour self ctx message
               (Some (Str s)) P h) = h ++ calls /\
        In (EditMessage (Message.id message)
              {| Edit.content := Passed None;
                 Edit.embed :=
                   Passed (Some {| Embed.title := title;
                                   Embed.colour := Some (Py.base16_value s);
                                   Embed.description := content |});
                 Edit.files := Passed [] |}) calls)).
Proof.
  intros H6.
  pose proof (int16_six_hex_digits s H6) as Hv.
  pose proof (six_hex_digits_matched s H6) as Hm.
  split; [exact Hv |]. split.
  - intros channel P h.
    rewrite (send_embed_matched self ctx channel s _ P h Hm Hv).
    split; [reflexivity | apply send_embed_posts_colour].
  - intros message P h.
    rewrite (edit_embed_matched self ctx message s _ P h Hm Hv).
    split; [reflexivity | apply edit_embed_puts_colour].
Qed.

(** ** Files that come with the answer to a prompt *)

Section PromptFiles.

Variables P Q : Platform.
Hypothesis HPQ : same_but_prompt_files P Q.

Lemma agrees_ret {A} (a : A) : agrees P Q (ret a).
Proof. intros h. reflexivity. Qed.

Lemma agrees_raise {A} e : agrees P Q (@raise A e).
Proof. intros h. reflexivity. Qed.

Lemma agrees_bind {A B} (m : M A) (k : A -> M B) :
  agrees P Q m -> (forall a, agrees P Q (k a)) -> agrees P Q (bind m k).
Proof.
  intros Hm Hk h. unfold bind. rewrite (Hm h).
  destruct (m Q h) as [[a|e] h']; [apply Hk | reflexivity].
Qed.

Lemma agrees_try {A B} (body : M A) classes (handler : M B) orelse :
  agrees P Q body -> agrees P Q handler -> (forall a, agrees P Q (orelse a)) ->
  agrees P Q (try_except_else body classes handler orelse).
Proof.
  intros Hb Hh Ho h. unfold try_except_else. rewrite (Hb h).
  destruct (body Q h) as [[a|e] h']; [apply Ho |].
  destruct (classes e); [apply Hh | reflexivity].
Qed.

Lemma agrees_channel_send channel content embed files :
  agrees P Q (channel_send channel content embed files).
Proof. intros h. unfold channel_send. now rewrite (same_send P Q HPQ). Qed.

Lemma agrees_message_edit message fields :
  agrees P Q (message_edit message fields).
Proof. intros h. unfold message_edit. now rewrite (same_edit P Q HPQ). Qed.

(** A prompt whose files are dropped. *)
Lemma agrees_prompt {B} bot channel author flag (k : string -> M B) :
  (forall text, agrees P Q (k text)) ->
  agrees P Q (bind (read_normal_message bot channel author flag)
                (fun answer => let '(text, _) := answer in k text)).
Proof.
  intros Hk h. unfold bind, read_normal_message.
  pose proof (same_prompt_text P Q HPQ h bot channel author flag) as E.
  destruct (on_read_normal_message P h bot channel author flag)
    as [[text files]|e];
    destruct (on_read_normal_message Q h bot channel author flag)
      as [[text' files']|e'];
    simpl in E; try discriminate E; injection E as <-;
    [apply Hk | reflexivity].
Qed.

(** C10.  The files that come with the title or with the body answered to
    the prompts of [send embed] and [edit embed] are dropped: against two
    platforms that differ in these files only, either command ends with
    the same result after the same calls.  In particular the run is the
    one of answers without files, the embed is made of the texts, and no
    file makes the command fail. *)
Theorem prompt_files_dropped self ctx color h :
  (forall channel,
     send_embed translations get_colour self ctx channel color P h
     = send_embed translations get_colour self ctx channel color Q h) /\
  (forall message,
     edit_embed translations get_colour self ctx message color P h
     = edit_embed translations get_colour self ctx message color Q h).
Proof.
  split.
  - intros channel. revert h. change (agrees P Q
      (send_embed translations get_colour self ctx channel color)).
    unfold send_embed. apply agrees_bind.
    { destruct color as [[v|s]|]; try apply agrees_ret.
      destruct (negb _); [apply agrees_raise |].
      destruct (Py.int16 s); [apply agrees_ret | apply agrees_raise]. }
    intros c.
    destruct (negb _); [apply agrees_raise |].
    destruct (negb _); [apply agrees_raise |].
    apply agrees_bind; [apply agrees_channel_send |]. intros msg.
    apply agrees_prompt. intros title.
    destruct (_ <? _)%nat; [apply agrees_raise |].
    apply agrees_bind; [apply agrees_message_edit |]. intros _.
    apply agrees_prompt. intros content.
    apply agrees_try;
      [apply agrees_channel_send | apply agrees_raise |].
    intros _. apply agrees_message_edit.
  - intros message. revert h. change (agrees P Q
      (edit_embed translations get_colour self ctx message color)).
    unfold edit_embed.
    destruct (user_ne _ _); [apply agrees_raise |].
    apply agrees_bind.
    { destruct color as [[v|s]|]; try apply agrees_ret.
      destruct (negb _); [apply agrees_raise |].
      destruct (Py.int16 s); [apply agrees_ret | apply agrees_raise]. }
    intros c.
    apply agrees_bind; [apply agrees_channel_send |]. intros msg.
    apply agrees_prompt. intros title.
    destruct (_ <? _)%nat; [apply agrees_raise |].
    apply agrees_bind; [apply agrees_message_edit |]. intros _.
    apply agrees_prompt. intros content.
    apply agrees_bind; [apply agrees_message_edit |]. intros _.
    apply agrees_message_edit.
Qed.

End PromptFiles.

End RulesFacts.

(* ===================================================================== *)
(** * The factory of models/mod.py                                         *)
(* ===================================================================== *)

Section ModFacts.
Import Mod.

Lemma alter_end {A} (f : A -> A) (l : list A) (x : A) :
  alter f (List.length l) (l ++ [x]) = l ++ [f x].
Proof. induction l as [|y l IH]; [reflexivity |]. cbn. f_equal. exact IH. Qed.

Lemma pending_snoc now0 objs key row :
  pending {| now := now0; objects := objs ++ [(row, Pending)]; sequence := key |}
  = pending {| now := now0; objects := objs; sequence := key |} ++ [row].
Proof.
  unfold pending. cbn [objects].
  rewrite filter_app, fmap_app. reflexivity.
Qed.

Lemma flush_length objs : forall key,
  List.length (fst (flush objs key)) = List.length objs.
Proof.
  induction objs as [|[row st] objs IH]; intros key; [reflexivity |].
  cbn [flush].
  destruct st; [| destruct (Warn.id row) |];
    match goal with
    | |- context [flush objs ?k] =>
        specialize (IH k); destruct (flush objs k) as [objs' key']
    end; cbn in *; now rewrite IH.
Qed.

(** Flushing goes through the objects in order, handing the key on. *)
Lemma flush_app objs1 objs2 : forall key,
  flush (objs1 ++ objs2) key
  = (fst (flush objs1 key) ++ fst (flush objs2 (snd (flush objs1 key))),
     snd (flush objs2 (snd (flush objs1 key)))).
Proof.
  induction objs1 as [|[row st] objs1 IH]; intros key.
  - cbn. now destruct (flush objs2 key).
  - cbn [flush app].
    destruct st; [| destruct (Warn.id row) |];
      match goal with
      | |- context [flush (objs1 ++ objs2) ?k] =>
          rewrite (IH k); destruct (flush objs1 k) as [objs' key']
      end; reflexivity.
Qed.

(** What [create] does, all of it. *)
Lemma create_eq member mod_ reason w :
  create member mod_ reason w
  = (List.length (objects w),
     {| now := now w;
        objects :=
          objects w ++
          [({| Warn.id := None; Warn.member := Some member;
               Warn.mod_ := Some mod_; Warn.timestamp := Some (now w);
               Warn.reason := Some reason |}, Pending)];
        sequence := sequence w |}).
Proof.
  unfold create, Warn_new, db_add. cbn [now objects sequence].
  rewrite alter_end. reflexivity.
Qed.

Lemma deref_commit_end w row :
  Warn.id row = None ->
  deref (commit {| now := now w; objects := objects w ++ [(row, Pending)];
                   sequence := sequence w |})
    (List.length (objects w))
  = Some (set_id row (snd (flush (objects w) (sequence w)))).
Proof.
  intros Hid. unfold deref, commit. cbn [objects sequence now].
  rewrite flush_app. cbn [flush]. rewrite Hid. cbn [fst snd objects].
  rewrite lookup_app_r by now rewrite flush_length.
  rewrite flush_length, Nat.sub_diag. reflexivity.
Qed.

(** C7.  [create] always returns: the object it returns has the member,
    the moderator and the reason it was given, the time of the call as its
    timestamp and no [id]; the session has one more pending insert, this
    object, and nothing else has changed.  The commit gives it an [id]. *)
Theorem create_queues_one_insert member mod_ reason w :
  exists record,
    create member mod_ reason w
    = (List.length (objects w),
       {| now := now w; objects := objects w ++ [(record, Pending)];
          sequence := sequence w |}) /\
    deref (snd (create member mod_ reason w)) (fst (create member mod_ reason w))
    = Some record /\
    Warn.member record = Some member /\
    Warn.mod_ record = Some mod_ /\
    Warn.reason record = Some reason /\
    Warn.timestamp record = Some (now w) /\
    Warn.id record = None /\
    pending (snd (create member mod_ reason w)) = pending w ++ [record] /\
    exists key,
      deref (commit (snd (create member mod_ reason w)))
        (fst (create member mod_ reason w))
      = Some (set_id record key).
Proof.
  eexists. rewrite create_eq. cbn [fst snd].
  split; [reflexivity |]. split.
  { unfold deref. cbn [objects].
    rewrite lookup_app_r by reflexivity. now rewrite Nat.sub_diag. }
  do 5 (split; [reflexivity |]). split.
  - destruct w as [now0 objs key]. apply pending_snoc.
  - eexists. now apply deref_commit_end.
Qed.

(** C8.  Two calls of [create] with the same arguments return two
    objects, at two addresses; both wait in the session, after the inserts
    that waited before, and the commit gives them two different [id]s. *)
Theorem create_twice_two_records member mod_ reason t w :
  exists first second w' record1 record2,
    Scenario.warn_twice member mod_ reason t w = ((first, second), w') /\
    first <> second /\
    deref w' first = Some record1 /\
    deref w' second = Some record2 /\
    pending w' = pending w ++ [record1; record2] /\
    exists key1 key2,
      deref (commit w') first = Some (set_id record1 key1) /\
      deref (commit w') second = Some (set_id record2 key2) /\
      key1 <> key2.
Proof.
  unfold Scenario.warn_twice. rewrite create_eq.
  rewrite create_eq. cbn [tick now objects sequence].
  eexists _, _, _,
    {| Warn.id := None; Warn.member := Some member; Warn.mod_ := Some mod_;
       Warn.timestamp := Some (now w); Warn.reason := Some reason |},
    {| Warn.id := None; Warn.member := Some member; Warn.mod_ := Some mod_;
       Warn.timestamp := Some t; Warn.reason := Some reason |}.
  split; [reflexivity |].
  rewrite length_app. cbn [List.length].
  split; [lia |].
  unfold deref. cbn [objects].
  split.
  { rewrite lookup_app_l by (rewrite length_app; cbn; lia).
    rewrite lookup_app_r by reflexivity. now rewrite Nat.sub_diag. }
  split.
  { rewrite lookup_app_r by (rewrite length_app; cbn; lia).
    rewrite length_app, Nat.sub_diag. reflexivity. }
  split.
  { destruct w as [now0 objs key]. cbn [now objects sequence].
    rewrite !pending_snoc, <- app_assoc. reflexivity. }
  exists (snd (flush (objects w) (sequence w))),
         (snd (flush (objects w) (sequence w)) + 1).
  unfold commit. cbn [objects sequence].
  rewrite <- app_assoc. cbn [app].
  rewrite flush_app. cbn [flush Warn.id fst snd objects].
  assert (Hlen := flush_length (objects w) (sequence w)).
  split; [| split; [| lia]].
  - rewrite lookup_app_r by now rewrite Hlen.
    rewrite Hlen, Nat.sub_diag. reflexivity.
  - rewrite lookup_app_r by (rewrite Hlen; lia).
    rewrite Hlen. replace (_ + 1 - _)%nat with 1%nat by lia. reflexivity.
Qed.

End ModFacts.

(* ===================================================================== *)
(** * Runs in the guild of [Scenario]                                      *)
(* ===================================================================== *)

Section Runs.
Import Translations Discord Rules Observe Scenario.

(** [send text] to the closed channel. *)
Lemma send_text_without_send_permission_run :
  Permissions.send_messages
    (TextChannel.permissions_for closed_channel
       (Guild.me (TextChannel.guild closed_channel))) = false /\
  send_text table colour cog ctx closed_channel (accepting []) []
  = (Raise (CommandError could_not_send_message), []).
Proof.
  split; [reflexivity |].
  apply (send_text_without_send_permission table colour cog ctx closed_channel
           (accepting []) []).
  reflexivity.
Defined.

(** The three [edit] commands on the message of a member. *)
Lemma edit_of_foreign_message_run :
  edit_text table colour cog ctx member_message (accepting []) []
  = (Raise (CommandError could_not_edit), []) /\
  edit_embed table colour cog ctx member_message (Some (Str "ff0000"))
    (accepting []) []
  = (Raise (CommandError could_not_edit), []) /\
  edit_copy table colour cog ctx member_message own_message (accepting []) []
  = (Raise (CommandError could_not_edit), []).
Proof.
  assert (Hne : Message.author member_message <> Bot.user (RulesCog.bot cog))
    by (intros E; discriminate E).
  destruct (edit_of_foreign_message table colour cog ctx member_message
              (accepting []) [] Hne) as (Ht & He & Hc).
  split; [exact Ht |]. split; [apply He | apply Hc].
Defined.

(** [edit embed] on the message of a member, with a string that is not a
    colour. *)
Lemma edit_embed_author_before_color_run :
  Py.re_match Py.color_pattern "#fff" = false /\
  edit_embed table colour cog ctx member_message (Some (Str "#fff"))
    (accepting []) []
  = (Raise (CommandError could_not_edit), []).
Proof.
  split; [reflexivity |].
  apply (edit_embed_author_before_color table colour cog ctx member_message
           (Some (Str "#fff")) (accepting []) []).
  intros E; discriminate E.
Defined.

(** [edit text] on a message of the bot, answered with a picture. *)
Lemma edit_text_with_files_run :
  edit_text table colour cog ctx own_message (accepting [picture]) []
  = (Raise (CommandError cannot_edit_files),
     [status_call ctx (rule_embed table colour cog send_new_message);
      prompt_call ctx]).
Proof.
  refine (proj1 (edit_text_with_files table colour cog ctx own_message
                   (accepting [picture]) [] _ "Be kind" [picture]
                   eq_refl eq_refl eq_refl _)).
  intros E; discriminate E.
Defined.

(** [delete] on a message of the bot: the message is deleted and the
    success embed is sent. *)
Lemma delete_checks_author_and_bot_run :
  delete table colour cog ctx own_message (accepting []) []
  = (Ok tt,
     [DeleteMessage 30;
      status_call ctx (rule_embed table colour cog msg_deleted)]).
Proof.
  destruct (delete_checks_author_and_bot table colour cog ctx own_message
              guild (accepting []) [] eq_refl) as [_ Hok].
  destruct (Hok (or_introl eq_refl)) as [_ Hdel].
  destruct (Hdel eq_refl) as [_ Hsent].
  exact (Hsent _ eq_refl).
Defined.

(** C1, as the specification words it, fails.  The message of a member in the
    staff channel: the invoker holds the permission to manage messages
    there, and so does the author of the message, the bot does not; the
    platform would accept every call.  Whoever of the invoker, the author
    and the bot is taken for the one who deletes, it is the bot or someone
    who holds the permission, and the command fails with
    [could_not_delete]. *)
Lemma delete_claim_counterexample :
  Message.guild staff_message = Some guild /\
  Permissions.manage_messages
    (TextChannel.permissions_for (Message.channel staff_message)
       (Context.author ctx)) = true /\
  Permissions.manage_messages
    (TextChannel.permissions_for (Message.channel staff_message)
       (Message.author staff_message)) = true /\
  Guild.me guild = Bot.user (RulesCog.bot cog) /\
  delete table colour cog ctx staff_message (accepting []) []
  = (Raise (CommandError could_not_delete), []).
Proof. repeat split. Qed.

(** A success of [delete] also needs the platform: here the bot deletes
    its own message and may not post in the channel of the invocation. *)
Example delete_then_send_refused :
  delete table colour cog ctx own_message read_only []
  = (Raise Forbidden,
     [DeleteMessage 30;
      status_call ctx (rule_embed table colour cog msg_deleted)]).
Proof. reflexivity. Qed.

(** C3, as the specification words it, fails for [edit embed]: on the message of a
    member a string that is not a colour does not make the command fail
    with [invalid_color]. *)
Lemma color_claim_counterexample :
  Py.re_match Py.color_pattern "zzzzzz" = false /\
  Message.author member_message <> Bot.user (RulesCog.bot cog) /\
  edit_embed table colour cog ctx member_message (Some (Str "zzzzzz"))
    (accepting []) []
  = (Raise (CommandError could_not_edit), []).
Proof. repeat split. intros E; discriminate E. Qed.

(** The strings of the specification, in [send embed] and in [edit embed]
    on a message of the bot. *)
Lemma color_string_checked_run :
  send_embed table colour cog ctx rules_channel (Some (Str "#fff"))
    (accepting []) []
  = (Raise (CommandError invalid_color), []) /\
  send_embed table colour cog ctx rules_channel (Some (Str "12345"))
    (accepting []) []
  = (Raise (CommandError invalid_color), []) /\
  edit_embed table colour cog ctx own_message (Some (Str "zzzzzz"))
    (accepting []) []
  = (Raise (CommandError invalid_color), []) /\
  edit_embed table colour cog ctx own_message (Some (Str "ff0000"))
    (accepting []) []
  = edit_embed table colour cog ctx own_message (Some (Native 16711680))
      (accepting []) [].
Proof.
  split; [| split; [| split]].
  - exact (proj1 (color_string_checked table colour cog ctx "#fff"
                    (accepting []) [] eq_refl) rules_channel).
  - exact (proj1 (color_string_checked table colour cog ctx "12345"
                    (accepting []) [] eq_refl) rules_channel).
  - exact (proj2 (color_string_checked table colour cog ctx "zzzzzz"
                    (accepting []) [] eq_refl) own_message eq_refl).
  - exact (proj2 (color_string_checked table colour cog ctx "ff0000"
                    (accepting []) [] eq_refl) own_message eq_refl).
Defined.

(** The pattern lets a line feed follow the six digits, and [int] strips
    it: the string is taken for the colour of the digits. *)
Example color_with_line_feed :
  Py.six_hex_digits ("ff0000" +:+ String Py.LF "") = false /\
  send_embed table colour cog ctx rules_channel
    (Some (Str ("ff0000" +:+ String Py.LF ""))) (accepting []) []
  = send_embed table colour cog ctx rules_channel (Some (Native 16711680))
      (accepting []) [].
Proof. split; reflexivity. Qed.

(** ["ff0000"] is 16711680, and the embed posted has that colour. *)
Lemma hex_string_color_value_run :
  Py.six_hex_digits "ff0000" = true /\
  Py.int16 "ff0000" = Some 16711680 /\
  exists title content calls,
    snd (send_embed table colour cog ctx rules_channel (Some (Str "ff0000"))
           (accepting []) []) = calls /\
    In (Send 20 None
          (Some {| Embed.title := title; Embed.colour := Some 16711680;
                   Embed.description := content |}) []) calls.
Proof.
  destruct (hex_string_color_value table colour cog ctx "ff0000" eq_refl)
    as (Hv & Hsend & _).
  split; [reflexivity |]. split; [exact Hv |].
  destruct (Hsend rules_channel (accepting []) []) as [_ Hposted].
  destruct (Hposted eq_refl) as (title & content & calls & Hcalls & Hin).
  exists title, content, calls. split; [exact Hcalls | exact Hin].
Defined.

Lemma accepting_same_but_prompt_files :
  same_but_prompt_files (accepting [picture]) (accepting []).
Proof. constructor; reflexivity. Defined.

(** The title and the body are answered with a picture, or without. *)
Lemma prompt_files_dropped_run :
  send_embed table colour cog ctx rules_channel None (accepting [picture]) []
  = send_embed table colour cog ctx rules_channel None (accepting []) [] /\
  edit_embed table colour cog ctx own_message None (accepting [picture]) []
  = edit_embed table colour cog ctx own_message None (accepting []) [].
Proof.
  destruct (prompt_files_dropped table colour (accepting [picture])
              (accepting []) accepting_same_but_prompt_files cog ctx None [])
    as [Hsend Hedit].
  split; [apply Hsend | apply Hedit].
Defined.

(** What that run of [send embed] is. *)
Example send_embed_with_picture :
  send_embed table colour cog ctx rules_channel None (accepting [picture]) []
  = (Ok tt,
     [status_call ctx (rule_embed table colour cog send_embed_title);
      prompt_call ctx;
      EditMessage 1000
        (embed_only
           (Embed.add_description (rule_embed table colour cog send_embed_title)
              (nl2 +:+ table send_embed_content)));
      prompt_call ctx;
      Send 20 None (Some (plain_embed "Be kind" "Be kind")) [];
      EditMessage 1000
        (embed_only
           (Embed.add_description
              (Embed.add_description
                 (rule_embed table colour cog send_embed_title)
                 (nl2 +:+ table send_embed_content))
              (nl2 +:+ table msg_sent)))]).
Proof. reflexivity. Qed.

(** [create(42, 7, "spam")] in a session that is not empty, and the two
    records of the same warning. *)
Example create_42_7_spam :
  Mod.create 42 7 "spam" busy
  = (2%nat,
     {| Mod.now := Mod.now busy;
        Mod.objects :=
          Mod.objects busy ++
          [({| Mod.Warn.id := None; Mod.Warn.member := Some 42;
               Mod.Warn.mod_ := Some 7;
               Mod.Warn.timestamp := Some 1600000000000000;
               Mod.Warn.reason := Some "spam" |}, Mod.Pending)];
        Mod.sequence := 2 |}).
Proof. reflexivity. Qed.

Example warn_twice_ids :
  let '(first, second, w) := warn_twice 42 7 "spam" 1600000000000000 busy in
  first = 2%nat /\ second = 3%nat /\
  Mod.Warn.id <$> Mod.deref (Mod.commit w) 1%nat = Some (Some 2) /\
  Mod.Warn.id <$> Mod.deref (Mod.commit w) first = Some (Some 3) /\
  Mod.Warn.id <$> Mod.deref (Mod.commit w) second = Some (Some 4).
Proof. repeat split. Qed.

End Runs.

(* ===================================================================== *)
(** * More on the handlers                                                 *)
(* ===================================================================== *)

Section MoreRulesFacts.
Import Translations Discord Rules Observe.

Variable translations : Translations.key -> string.
Variable get_colour : RulesCog.t -> Colour.

Lemma calls_since_app h k : calls_since h (h ++ k) = k.
Proof. apply drop_app_length. Qed.

Lemma calls_since_same h : calls_since h h = [].
Proof. apply drop_all. Qed.

(** Unfold the steps of a coroutine, and look at every answer of the
    platform. *)
Ltac steps :=
  unfold bind, try_except_else, ret, raise, ctx_send, channel_send,
    read_normal_message, read_complete_message, message_edit, message_delete.

Ltac answers :=
  repeat match goal with
         | |- context [match ?x with _ => _ end] => destruct x eqn:?
         end.

Ltac since :=
  cbn [fst snd]; rewrite <- ?app_assoc;
  rewrite ?calls_since_app, ?calls_since_same; cbn [app].

Ltac shown :=
  repeat match goal with
         | |- exists _, _ => eexists
         | |- _ /\ _ => split
         end;
  first [eassumption | reflexivity | since; reflexivity | idtac].

Ltac among H :=
  cbn [In] in H;
  repeat match type of H with
         | _ \/ _ => destruct H as [H | H]
         end;
  try discriminate H; try contradiction.

(** X1.  [delete] on a message of a private channel fails with
    [cannot_delete_dm] and makes no call, whoever wrote the message and
    whatever the bot may do in the channel. *)
Theorem delete_private_message self ctx message P h :
  Message.guild message = None ->
  delete translations get_colour self ctx message P h
  = (Raise (CommandError cannot_delete_dm), h).
Proof. intros Hdm. unfold delete. rewrite Hdm. reflexivity. Qed.

(** X2.  [delete] deletes nothing but the message it was given, and only
    when that is a message of a guild which the bot wrote or which lies in
    a channel where the bot may manage messages; it edits no message and
    does not prompt. *)
Theorem delete_only_when_allowed self ctx message P h c :
  In c (calls_since h
          (snd (delete translations get_colour self ctx message P h))) ->
  (deletes c = true ->
   c = DeleteMessage (Message.id message) /\
   exists guild,
     Message.guild message = Some guild /\
     (Message.author message = Bot.user (RulesCog.bot self) \/
      Permissions.manage_messages
        (TextChannel.permissions_for (Message.channel message)
           (Guild.me guild)) = true)) /\
  (forall m, edits m c = false) /\
  prompts c = false.
Proof.
  unfold delete.
  destruct (Message.guild message) as [guild|] eqn:Hguild;
    [| steps; since; intros []].
  destruct (user_ne _ _ && negb _) eqn:Hcond; [steps; since; intros [] |].
  assert (Hallowed :
    Message.author message = Bot.user (RulesCog.bot self) \/
    Permissions.manage_messages
      (TextChannel.permissions_for (Message.channel message) (Guild.me guild))
    = true).
  { apply andb_false_iff in Hcond as [Hown%user_ne_false | Hp%negb_false_iff];
      auto. }
  steps. answers; since; intros Hin; among Hin; subst c;
    (split;
     [intros Hd; first [discriminate Hd | split; [reflexivity | eauto]]
     | split; [intros m0; reflexivity | reflexivity]]).
Qed.

(** The colour step, for an argument the pattern does not refuse. *)
Lemma matched_resolved color :
  unmatched color = false ->
  match color with
  | Some (Str s) =>
      Py.re_match Py.color_pattern s = true /\
      exists v, Py.int16 s = Some v /\ resolved color = Some v
  | _ => True
  end.
Proof.
  destruct color as [[v|s]|]; cbn [unmatched resolved];
    try exact (fun _ => I).
  intros Hm%negb_false_iff. split; [exact Hm |].
  destruct (re_match_int16 s Hm) as (s0 & _ & ->). eauto.
Qed.

(** X3.  [send embed] checks in this order, each failure without a call:
    a string that is not a colour gives [invalid_color] whatever the bot
    may do in the channel; then a bot that may not send messages gives
    [could_not_send_message], also when it may not embed links either;
    then a bot that may not embed links gives [could_not_send_embed]. *)
Theorem send_embed_checks_in_order self ctx channel color P h :
  (unmatched color = true ->
   send_embed translations get_colour self ctx channel color P h
   = (Raise (CommandError invalid_color), h)) /\
  (unmatched color = false ->
   Permissions.send_messages
     (TextChannel.permissions_for channel (Guild.me (TextChannel.guild channel)))
   = false ->
   send_embed translations get_colour self ctx channel color P h
   = (Raise (CommandError could_not_send_message), h)) /\
  (unmatched color = false ->
   Permissions.send_messages
     (TextChannel.permissions_for channel (Guild.me (TextChannel.guild channel)))
   = true ->
   Permissions.embed_links
     (TextChannel.permissions_for channel (Guild.me (TextChannel.guild channel)))
   = false ->
   send_embed translations get_colour self ctx channel color P h
   = (Raise (CommandError could_not_send_embed), h)).
Proof.
  repeat split.
  - destruct color as [[v|s]|]; cbn [unmatched]; try discriminate.
    intros Hm. unfold send_embed. rewrite Hm. reflexivity.
  - intros Hc Hs. pose proof (matched_resolved color Hc) as Hr.
    unfold send_embed. destruct color as [[v|s]|].
    + steps. rewrite Hs. reflexivity.
    + destruct Hr as (Hm & v & Hv & _). rewrite Hm, Hv. steps.
      rewrite Hs. reflexivity.
    + steps. rewrite Hs. reflexivity.
  - intros Hc Hs He. pose proof (matched_resolved color Hc) as Hr.
    unfold send_embed. destruct color as [[v|s]|].
    + steps. rewrite Hs, He. reflexivity.
    + destruct Hr as (Hm & v & Hv & _). rewrite Hm, Hv. steps.
      rewrite Hs, He. reflexivity.
    + steps. rewrite Hs, He. reflexivity.
Qed.

(** X4.  A title of more than 256 characters stops [send embed] and [edit
    embed] with [title_too_long] right after the first prompt: the body is
    not asked for, nothing is posted in the channel and the message is not
    edited. *)
Theorem title_too_long_stops self ctx color P h msg h1 title files h2 :
  unmatched color = false ->
  ctx_send ctx (rule_embed translations get_colour self send_embed_title) P h
  = (Ok msg, h1) ->
  read_normal_message (RulesCog.bot self) (Context.channel ctx)
    (Context.author ctx) true P h1
  = (Ok (title, files), h2) ->
  (256 < String.length title)%nat ->
  calls_since h h2
  = [status_call ctx (rule_embed translations get_colour self send_embed_title);
     prompt_call ctx] /\
  (forall channel,
     Permissions.send_messages
       (TextChannel.permissions_for channel
          (Guild.me (TextChannel.guild channel))) = true ->
     Permissions.embed_links
       (TextChannel.permissions_for channel
          (Guild.me (TextChannel.guild channel))) = true ->
     send_embed translations get_colour self ctx channel color P h
     = (Raise (CommandError title_too_long), h2)) /\
  (forall message,
     Message.author message = Bot.user (RulesCog.bot self) ->
     edit_embed translations get_colour self ctx message color P h
     = (Raise (CommandError title_too_long), h2)).
Proof.
  intros Hc Hsend Hread Hlen%Nat.ltb_lt.
  pose proof (matched_resolved color Hc) as Hr.
  split.
  { unfold ctx_send, channel_send in Hsend. injection Hsend as _ <-.
    unfold read_normal_message in Hread. injection Hread as _ <-.
    since. reflexivity. }
  split.
  - intros channel Hs He. unfold send_embed.
    destruct color as [[v|s]|];
      [| destruct Hr as (Hm & v & Hv & _); rewrite Hm, Hv |];
      unfold bind; cbn [negb ret]; rewrite Hs, He; cbn [negb];
      rewrite Hsend, Hread, Hlen; reflexivity.
  - intros message Hown%user_ne_false. unfold edit_embed. rewrite Hown.
    destruct color as [[v|s]|];
      [| destruct Hr as (Hm & v & Hv & _); rewrite Hm, Hv |];
      unfold bind; cbn [negb ret]; rewrite Hsend, Hread, Hlen; reflexivity.
Qed.

(** X5.  When [send text] succeeds, what was posted in the channel is the
    text and the files of the answer to the prompt, as they came; the calls
    are the status embed, the prompt, that message, and the edit that adds
    the last line to the status embed. *)
Theorem send_text_relays_answer self ctx channel P h :
  fst (send_text translations get_colour self ctx channel P h) = Ok tt ->
  exists msg content files,
    on_send P h (Context.channel ctx) None
      (Some (rule_embed translations get_colour self send_message)) []
    = Ok msg /\
    on_read_normal_message P
      (h ++ [status_call ctx
               (rule_embed translations get_colour self send_message)])
      (RulesCog.bot self) (Context.channel ctx) (Context.author ctx) true
    = Ok (content, files) /\
    calls_since h (snd (send_text translations get_colour self ctx channel P h))
    = [status_call ctx (rule_embed translations get_colour self send_message);
       prompt_call ctx;
       Send (TextChannel.id channel) (Some content) None files;
       EditMessage (Message.id msg)
         (embed_only
            (Embed.add_description
               (rule_embed translations get_colour self send_message)
               (nl2 +:+ translations msg_sent)))].
Proof.
  unfold send_text. steps. answers; cbn [fst]; intros Hok;
    try discriminate Hok.
  shown.
Qed.

(** X6.  When the platform refuses the message [send text] relays, or the
    copy [send copy] posts: [Forbidden], and [HTTPException] of
    [http.client], become [msg_could_not_be_sent]; any other exception,
    such as [NotFound] or the platform's own error for a bad request, ends
    the command as it is.  In both cases the refused sending is the last
    call: no success is reported. *)
Theorem refused_sending self ctx channel P e :
  (forall h msg h1 content files h2 h3,
     Permissions.send_messages
       (TextChannel.permissions_for channel
          (Guild.me (TextChannel.guild channel))) = true ->
     ctx_send ctx (rule_embed translations get_colour self send_message) P h
     = (Ok msg, h1) ->
     read_normal_message (RulesCog.bot self) (Context.channel ctx)
       (Context.author ctx) true P h1
     = (Ok (content, files), h2) ->
     channel_send channel (Some content) None files P h2 = (Raise e, h3) ->
     send_text translations get_colour self ctx channel P h
     = (Raise (if HTTPException_or_Forbidden e
               then CommandError msg_could_not_be_sent else e), h3)) /\
  (forall h message content files embed h1 h2,
     read_complete_message message P h = (Ok (content, files, embed), h1) ->
     channel_send channel (Some content) embed files P h1 = (Raise e, h2) ->
     send_copy translations get_colour self ctx channel message P h
     = (Raise (if HTTPException_or_Forbidden e
               then CommandError msg_could_not_be_sent else e), h2)).
Proof.
  split.
  - intros h msg h1 content files h2 h3 Hs Hstatus Hread Hsend.
    unfold send_text, bind, try_except_else. rewrite Hs. cbn [negb].
    rewrite Hstatus, Hread, Hsend.
    destruct (HTTPException_or_Forbidden e); reflexivity.
  - intros h message content files embed h1 h2 Hread Hsend.
    unfold send_copy, bind, try_except_else. rewrite Hread, Hsend.
    destruct (HTTPException_or_Forbidden e); reflexivity.
Qed.

(** X7.  [send copy] checks no permission and asks nothing of the invoker.
    When it succeeds, the message posted in the channel has the text, the
    embed and the files of the message it copies, as they were read, and
    the success embed is posted in the channel of the invocation. *)
Theorem send_copy_replicates self ctx channel message P h :
  existsb prompts
    (calls_since h
       (snd (send_copy translations get_colour self ctx channel message P h)))
  = false /\
  (fst (send_copy translations get_colour self ctx channel message P h) = Ok tt ->
   exists content files embed,
     on_read_complete_message P h message = Ok (content, files, embed) /\
     calls_since h
       (snd (send_copy translations get_colour self ctx channel message P h))
     = [ReadCompleteMessage (Message.id message);
        Send (TextChannel.id channel) (Some content) embed files;
        status_call ctx (rule_embed translations get_colour self msg_sent)]).
Proof.
  unfold send_copy. steps.
  split; answers; since; try reflexivity; cbn [fst]; intros Hok;
    try discriminate Hok; shown.
Qed.

(** X8.  [edit copy] on a message of the bot: when the message it copies
    has files, the command fails with [cannot_edit_files] after reading
    that message, and edits nothing; when the command succeeds, the
    message was edited once, to the text and the embed of the copied
    message, which had no files. *)
Theorem edit_copy_files_or_edit self ctx message source P h :
  (forall content files embed h1,
     Message.author message = Bot.user (RulesCog.bot self) ->
     read_complete_message source P h = (Ok (content, files, embed), h1) ->
     files <> [] ->
     edit_copy translations get_colour self ctx message source P h
     = (Raise (CommandError cannot_edit_files), h1) /\
     calls_since h h1 = [ReadCompleteMessage (Message.id source)]) /\
  (fst (edit_copy translations get_colour self ctx message source P h) = Ok tt ->
   Message.author message = Bot.user (RulesCog.bot self) /\
   exists content embed,
     on_read_complete_message P h source = Ok (content, [], embed) /\
     calls_since h
       (snd (edit_copy translations get_colour self ctx message source P h))
     = [ReadCompleteMessage (Message.id source);
        EditMessage (Message.id message)
          {| Edit.content := Passed (Some content);
             Edit.embed := Passed embed;
             Edit.files := Omitted |};
        status_call ctx (rule_embed translations get_colour self msg_edited)]).
Proof.
  split.
  - intros content files embed h1 Hown%user_ne_false Hread Hfiles.
    unfold edit_copy, bind. rewrite Hown, Hread.
    destruct files as [|f files]; [congruence |].
    split; [reflexivity |].
    unfold read_complete_message in Hread. injection Hread as _ <-.
    since. reflexivity.
  - unfold edit_copy.
    destruct (user_ne _ _) eqn:Hown; [discriminate |].
    apply user_ne_false in Hown.
    steps. answers; cbn [fst]; intros Hok; try discriminate Hok.
    shown.
Qed.

(** X9.  When [edit text] succeeds, the message is one of the bot, the
    answer to the prompt had no files, and the message was edited once: its
    text is the text of the answer and its embed is removed.  The status
    embed is edited last. *)
Theorem edit_text_replaces_text self ctx message P h :
  fst (edit_text translations get_colour self ctx message P h) = Ok tt ->
  Message.author message = Bot.user (RulesCog.bot self) /\
  exists msg content,
    on_send P h (Context.channel ctx) None
      (Some (rule_embed translations get_colour self send_new_message)) []
    = Ok msg /\
    on_read_normal_message P
      (h ++ [status_call ctx
               (rule_embed translations get_colour self send_new_message)])
      (RulesCog.bot self) (Context.channel ctx) (Context.author ctx) true
    = Ok (content, []) /\
    calls_since h (snd (edit_text translations get_colour self ctx message P h))
    = [status_call ctx
         (rule_embed translations get_colour self send_new_message);
       prompt_call ctx;
       EditMessage (Message.id message)
         {| Edit.content := Passed (Some content);
            Edit.embed := Passed None;
            Edit.files := Omitted |};
       EditMessage (Message.id msg)
         (embed_only
            (Embed.add_description
               (rule_embed translations get_colour self send_new_message)
               (nl2 +:+ translations msg_edited)))].
Proof.
  unfold edit_text.
  destruct (user_ne _ _) eqn:Hown; [discriminate |].
  apply user_ne_false in Hown.
  steps. answers; cbn [fst]; intros Hok; try discriminate Hok.
  shown.
Qed.




(** A call of a [send] command: it deletes nothing, it edits no message
    but the status message the platform returned, it posts nowhere but in
    the channel of the invocation and in the channel given. *)
Ltac frame_send :=
  split;
  [reflexivity
  | split;
    [intros ? ? E; first [discriminate E | injection E as <- _; eauto]
    | intros ? ? ? ? E;
      first [discriminate E | injection E as <- _ _ _; auto]]].

Ltac colour_step s :=
  destruct (negb (Py.re_match Py.color_pattern s));
  [| destruct (Py.int16 s)].

(** X12.  Whatever the platform answers, a call made by [send text],
    [send embed] or [send copy] deletes nothing; if it edits a message,
    that is the status message the command has posted itself; if it posts,
    that is in the channel of the invocation or in the channel given. *)
Theorem send_commands_frame self ctx channel color message P h c :
  In c (calls_since h
          (snd (send_text translations get_colour self ctx channel P h))) \/
  In c (calls_since h
          (snd (send_embed translations get_colour self ctx channel color
                  P h))) \/
  In c (calls_since h
          (snd (send_copy translations get_colour self ctx channel message
                  P h))) ->
  deletes c = false /\
  (forall m fields,
     c = EditMessage m fields ->
     exists status msg,
       on_send P h (Context.channel ctx) None (Some status) [] = Ok msg /\
       m = Message.id msg) /\
  (forall target content embed files,
     c = Send target content embed files ->
     target = TextChannel.id (Context.channel ctx) \/
     target = TextChannel.id channel).
Proof.
  intros [Hin | [Hin | Hin]]; revert Hin.
  - unfold send_text. steps.
    answers; since; intros Hin; among Hin; subst c; frame_send.
  - unfold send_embed.
    destruct color as [[v|s]|]; [| colour_step s |]; steps;
      answers; since; intros Hin; among Hin; subst c; frame_send.
  - unfold send_copy. steps.
    answers; since; intros Hin; among Hin; subst c; frame_send.
Qed.

Ltac frame_edit :=
  split;
  [reflexivity
  | split;
    [intros ? ? E;
     first [discriminate E
           | injection E as <- _; first [left; reflexivity | right; eauto]]
    | intros ? ? ? ? E;
      first [discriminate E | injection E as <- _ _ _; reflexivity]]].

(** X13.  Whatever the platform answers, a call made by [edit text], [edit
    embed] or [edit copy] deletes nothing; if it edits a message, that is
    the message given or the status message the command has posted itself;
    if it posts, that is in the channel of the invocation. *)
Theorem edit_commands_frame self ctx message color source P h c :
  In c (calls_since h
          (snd (edit_text translations get_colour self ctx message P h))) \/
  In c (calls_since h
          (snd (edit_embed translations get_colour self ctx message color
                  P h))) \/
  In c (calls_since h
          (snd (edit_copy translations get_colour self ctx message source
                  P h))) ->
  deletes c = false /\
  (forall m fields,
     c = EditMessage m fields ->
     m = Message.id message \/
     exists status msg,
       on_send P h (Context.channel ctx) None (Some status) [] = Ok msg /\
       m = Message.id msg) /\
  (forall target content embed files,
     c = Send target content embed files ->
     target = TextChannel.id (Context.channel ctx)).
Proof.
  intros [Hin | [Hin | Hin]]; revert Hin.
  - unfold edit_text. steps.
    answers; since; intros Hin; among Hin; subst c; frame_edit.
  - unfold edit_embed.
    destruct (user_ne _ _); [steps; since; intros [] |].
    destruct color as [[v|s]|]; [| colour_step s |]; steps;
      answers; since; intros Hin; among Hin; subst c; frame_edit.
  - unfold edit_copy. steps.
    answers; since; intros Hin; among Hin; subst c; frame_edit.
Qed.

(** The value of [n] digits is below [16 ^ n]. *)
Lemma positional16_bound cs :
  forallb Py.hex_class cs = true ->
  0 <= Py.positional16 cs < 16 ^ Z.of_nat (List.length cs).
Proof.
  induction cs as [|c cs IH]; intros Hall; [cbn; lia |].
  cbn [forallb] in Hall. apply andb_prop in Hall as [Hc Hcs].
  specialize (IH Hcs).
  destruct (hex_class_char c Hc) as (_ & _ & _ & _ & _ & _ & _ & d & Hd & Hr).
  cbn [Py.positional16 List.length]. rewrite Hd. cbn [default]. unfold id.
  rewrite Nat2Z.inj_succ, Z.pow_succ_r by lia.
  assert (0 < 16 ^ Z.of_nat (List.length cs)) by (apply Z.pow_pos_nonneg; lia).
  nia.
Qed.

Lemma base16_value_bound s :
  Py.six_hex_digits s = true -> 0 <= Py.base16_value s <= 16777215.
Proof.
  unfold Py.six_hex_digits, Py.base16_value.
  intros [Hlen%Nat.eqb_eq Hall]%andb_prop.
  pose proof (positional16_bound _ Hall) as Hb.
  rewrite length_list_ascii_of_string, Hlen in Hb.
  change (16 ^ Z.of_nat 6) with 16777216 in Hb. lia.
Qed.

(** X14.  Whatever string is given as the colour, [send embed] and [edit
    embed] either refuse it, or take it for a colour between 0 and
    16777215 and run as with that colour: after the pattern has matched,
    [int(color, 16)] does not raise and yields no other number. *)
Theorem color_string_outcome self ctx s :
  (Py.re_match Py.color_pattern s = false /\
   (forall channel P h,
      send_embed translations get_colour self ctx channel (Some (Str s)) P h
      = (Raise (CommandError invalid_color), h)) /\
   (forall message P h,
      Message.author message = Bot.user (RulesCog.bot self) ->
      edit_embed translations get_colour self ctx message (Some (Str s)) P h
      = (Raise (CommandError invalid_color), h))) \/
  (exists v,
     0 <= v <= 16777215 /\
     Py.re_match Py.color_pattern s = true /\
     Py.int16 s = Some v /\
     (forall channel P h,
        send_embed translations get_colour self ctx channel (Some (Str s)) P h
        = send_embed translations get_colour self ctx channel
            (Some (Native v)) P h) /\
     (forall message P h,
        edit_embed translations get_colour self ctx message (Some (Str s)) P h
        = edit_embed translations get_colour self ctx message
            (Some (Native v)) P h)).
Proof.
  destruct (Py.re_match Py.color_pattern s) eqn:Hm.
  - right. destruct (re_match_int16 s Hm) as (s0 & H6 & Hv).
    exists (Py.base16_value s0).
    split; [now apply base16_value_bound |].
    split; [reflexivity |]. split; [exact Hv |].
    split; intros; [now apply send_embed_matched | now apply edit_embed_matched].
  - left. split; [reflexivity |].
    split; intros; [now apply send_embed_unmatched
                   | now apply edit_embed_unmatched].
Qed.

(** X15.  The strings the pattern of the colour accepts are the strings of
    six hexadecimal digits and the same followed by one line feed, and no
    other: no [#], no [0x], no shorter or longer run of digits, no space. *)
Theorem color_pattern_language s :
  Py.re_match Py.color_pattern s = true <->
  exists digits,
    Py.six_hex_digits digits = true /\
    (s = digits \/ s = digits +:+ String Py.LF "").
Proof.
  rewrite re_match_color_pattern. split.
  - intros [H6 | (s0 & -> & H6)]; eauto.
  - intros (digits & H6 & [-> | ->]); eauto.
Qed.

(** X16.  When the status embed is posted and the reader of the first
    answer raises, [send text], [send embed], [edit text] and [edit embed]
    end with that exception; the status embed and the prompt are their only
    calls, so that nothing is sent to the channel given and the message
    given is not edited. *)
Theorem unanswered_prompt self ctx P h e :
  (forall embed, exists msg,
     on_send P h (Context.channel ctx) None (Some embed) [] = Ok msg) ->
  (forall embed,
     on_read_normal_message P (h ++ [status_call ctx embed])
       (RulesCog.bot self) (Context.channel ctx) (Context.author ctx) true
     = Raise e) ->
  (forall channel,
     Permissions.send_messages
       (TextChannel.permissions_for channel
          (Guild.me (TextChannel.guild channel))) = true ->
     send_text translations get_colour self ctx channel P h
     = (Raise e,
        h ++ [status_call ctx
                (rule_embed translations get_colour self send_message);
              prompt_call ctx]) /\
     forall color,
       unmatched color = false ->
       Permissions.embed_links
         (TextChannel.permissions_for channel
            (Guild.me (TextChannel.guild channel))) = true ->
       send_embed translations get_colour self ctx channel color P h
       = (Raise e,
          h ++ [status_call ctx
                  (rule_embed translations get_colour self send_embed_title);
                prompt_call ctx])) /\
  (forall message,
     Message.author message = Bot.user (RulesCog.bot self) ->
     edit_text translations get_colour self ctx message P h
     = (Raise e,
        h ++ [status_call ctx
                (rule_embed translations get_colour self send_new_message);
              prompt_call ctx]) /\
     forall color,
       unmatched color = false ->
       edit_embed translations get_colour self ctx message color P h
       = (Raise e,
          h ++ [status_call ctx
                  (rule_embed translations get_colour self send_embed_title);
                prompt_call ctx])).
Proof.
  intros Hstatus Hread. split.
  - intros channel Hs. split.
    + destruct (Hstatus (rule_embed translations get_colour self send_message))
        as [msg Hmsg].
      unfold send_text. rewrite Hs. steps. cbn [negb].
      rewrite Hmsg.
      fold (status_call ctx (rule_embed translations get_colour self send_message)).
      rewrite Hread, <- app_assoc. reflexivity.
    + intros color Hc He.
      destruct (Hstatus (rule_embed translations get_colour self send_embed_title))
        as [msg Hmsg].
      pose proof (matched_resolved color Hc) as Hr.
      unfold send_embed.
      destruct color as [[v|s]|];
        [| destruct Hr as (Hm & v & Hv & _); rewrite Hm, Hv |];
        steps; cbn [negb]; rewrite Hs, He; cbn [negb]; rewrite Hmsg;
        fold (status_call ctx
                (rule_embed translations get_colour self send_embed_title));
        rewrite Hread, <- app_assoc; reflexivity.
  - intros message Hown%user_ne_false. split.
    + destruct (Hstatus (rule_embed translations get_colour self send_new_message))
        as [msg Hmsg].
      unfold edit_text. rewrite Hown. steps. rewrite Hmsg.
      fold (status_call ctx
              (rule_embed translations get_colour self send_new_message)).
      rewrite Hread, <- app_assoc. reflexivity.
    + intros color Hc.
      destruct (Hstatus (rule_embed translations get_colour self send_embed_title))
        as [msg Hmsg].
      pose proof (matched_resolved color Hc) as Hr.
      unfold edit_embed. rewrite Hown.
      destruct color as [[v|s]|];
        [| destruct Hr as (Hm & v & Hv & _); rewrite Hm, Hv |];
        steps; cbn [negb]; rewrite Hmsg;
        fold (status_call ctx
                (rule_embed translations get_colour self send_embed_title));
        rewrite Hread, <- app_assoc; reflexivity.
Qed.

(** X17.  The groups [send] and [edit] make no call: invoked without a
    subcommand they raise [UserInputError], and with one they return, so
    that the subcommand decides the outcome. *)
Theorem group_needs_subcommand self ctx P h :
  (Context.invoked_subcommand ctx = None <->
   send self ctx P h = (Raise UserInputError, h)) /\
  (Context.invoked_subcommand ctx = None <->
   edit self ctx P h = (Raise UserInputError, h)) /\
  (Context.invoked_subcommand ctx <> None <->
   send self ctx P h = (Ok tt, h)) /\
  (Context.invoked_subcommand ctx <> None <->
   edit self ctx P h = (Ok tt, h)).
Proof.
  unfold send, edit.
  unfold raise, ret.
  destruct (Context.invoked_subcommand ctx) as [name|];
    repeat split; intros; try discriminate; try congruence.
Qed.

End MoreRulesFacts.

(* ===================================================================== *)
(** * More runs in the guild of [Scenario]                                 *)
(* ===================================================================== *)

Section MoreRuns.
Import Translations Discord Rules Observe Scenario.

Lemma delete_private_message_run :
  delete table colour cog ctx private_message (accepting []) []
  = (Raise (CommandError cannot_delete_dm), []).
Proof.
  exact (delete_private_message table colour cog ctx private_message
           (accepting []) [] eq_refl).
Defined.

Lemma delete_only_when_allowed_run :
  In (DeleteMessage 30)
    (calls_since []
       (snd (delete table colour cog ctx own_message (accepting []) []))) /\
  exists guild,
    Message.guild own_message = Some guild /\
    (Message.author own_message = Bot.user (RulesCog.bot cog) \/
     Permissions.manage_messages
       (TextChannel.permissions_for (Message.channel own_message)
          (Guild.me guild)) = true).
Proof.
  assert (Hin : In (DeleteMessage 30)
                  (calls_since []
                     (snd (delete table colour cog ctx own_message
                             (accepting []) []))))
    by (left; reflexivity).
  split; [exact Hin |].
  destruct (delete_only_when_allowed table colour cog ctx own_message
              (accepting []) [] (DeleteMessage 30) Hin) as [Hdel _].
  exact (proj2 (Hdel eq_refl)).
Defined.

Lemma send_embed_checks_in_order_run :
  send_embed table colour cog ctx closed_channel (Some (Str "#fff"))
    (accepting []) []
  = (Raise (CommandError invalid_color), []) /\
  send_embed table colour cog ctx closed_channel (Some (Str "ff0000"))
    (accepting []) []
  = (Raise (CommandError could_not_send_message), []) /\
  send_embed table colour cog ctx text_channel None (accepting []) []
  = (Raise (CommandError could_not_send_embed), []).
Proof.
  split; [| split].
  - exact (proj1 (send_embed_checks_in_order table colour cog ctx
                    closed_channel (Some (Str "#fff")) (accepting []) [])
             eq_refl).
  - exact (proj1 (proj2 (send_embed_checks_in_order table colour cog ctx
                           closed_channel (Some (Str "ff0000"))
                           (accepting []) []))
             eq_refl eq_refl).
  - exact (proj2 (proj2 (send_embed_checks_in_order table colour cog ctx
                           text_channel None (accepting []) []))
             eq_refl eq_refl eq_refl).
Defined.

Lemma long_title_length : (256 < String.length long_title)%nat.
Proof. apply Nat.ltb_lt. vm_compute. reflexivity. Defined.

Lemma title_too_long_stops_run :
  send_embed table colour cog ctx rules_channel (Some (Str "ff0000"))
    (platform long_title [] Forbidden) []
  = (Raise (CommandError title_too_long),
     [status_call ctx (rule_embed table colour cog send_embed_title);
      prompt_call ctx]) /\
  edit_embed table colour cog ctx own_message None
    (platform long_title [] Forbidden) []
  = (Raise (CommandError title_too_long),
     [status_call ctx (rule_embed table colour cog send_embed_title);
      prompt_call ctx]).
Proof.
  split.
  - refine (proj1 (proj2 (title_too_long_stops table colour cog ctx
                            (Some (Str "ff0000"))
                            (platform long_title [] Forbidden) [] _ _
                            long_title [] _
                            eq_refl eq_refl eq_refl long_title_length))
              rules_channel eq_refl eq_refl).
  - refine (proj2 (proj2 (title_too_long_stops table colour cog ctx None
                            (platform long_title [] Forbidden) [] _ _
                            long_title [] _
                            eq_refl eq_refl eq_refl long_title_length))
              own_message eq_refl).
Defined.

Lemma send_text_relays_answer_run :
  calls_since []
    (snd (send_text table colour cog ctx rules_channel
            (accepting [picture]) []))
  = [status_call ctx (rule_embed table colour cog send_message);
     prompt_call ctx;
     Send 20 (Some "Be kind") None [picture];
     EditMessage 1000
       (embed_only
          (Embed.add_description (rule_embed table colour cog send_message)
             (nl2 +:+ table msg_sent)))].
Proof.
  destruct (send_text_relays_answer table colour cog ctx rules_channel
              (accepting [picture]) [] eq_refl)
    as (msg & content & files & Hmsg & Hanswer & Hcalls).
  injection Hmsg as <-. injection Hanswer as <- <-. exact Hcalls.
Defined.

Lemma refused_sending_run :
  send_text table colour cog ctx staff_channel
    (platform "Be kind" [] Forbidden) []
  = (Raise (CommandError msg_could_not_be_sent),
     [status_call ctx (rule_embed table colour cog send_message);
      prompt_call ctx;
      Send 21 (Some "Be kind") None []]) /\
  send_text table colour cog ctx staff_channel
    (platform "Be kind" [] DiscordHTTPException) []
  = (Raise DiscordHTTPException,
     [status_call ctx (rule_embed table colour cog send_message);
      prompt_call ctx;
      Send 21 (Some "Be kind") None []]) /\
  send_copy table colour cog ctx staff_channel member_message
    (platform "Be kind" [picture] NotFound) []
  = (Raise NotFound,
     [ReadCompleteMessage 31;
      Send 21 (Some "Be kind") (Some rules_text) [picture]]).
Proof.
  split; [| split].
  - refine (proj1 (refused_sending table colour cog ctx staff_channel
                     (platform "Be kind" [] Forbidden) Forbidden)
              [] _ _ "Be kind" [] _ _ eq_refl eq_refl eq_refl eq_refl).
  - refine (proj1 (refused_sending table colour cog ctx staff_channel
                     (platform "Be kind" [] DiscordHTTPException)
                     DiscordHTTPException)
              [] _ _ "Be kind" [] _ _ eq_refl eq_refl eq_refl eq_refl).
  - refine (proj2 (refused_sending table colour cog ctx staff_channel
                     (platform "Be kind" [picture] NotFound) NotFound)
              [] member_message "Be kind" [picture] (Some rules_text) _ _
              eq_refl eq_refl).
Defined.

Lemma send_copy_replicates_run :
  calls_since []
    (snd (send_copy table colour cog ctx closed_channel member_message
            (platform "Be kind" [picture] Forbidden) []))
  = [ReadCompleteMessage 31;
     Send 22 (Some "Be kind") (Some rules_text) [picture];
     status_call ctx (rule_embed table colour cog msg_sent)].
Proof.
  destruct (proj2 (send_copy_replicates table colour cog ctx closed_channel
                     member_message (platform "Be kind" [picture] Forbidden)
                     []) eq_refl)
    as (content & files & embed & Hread & Hcalls).
  injection Hread as <- <- <-. exact Hcalls.
Defined.

Lemma edit_copy_files_or_edit_run :
  edit_copy table colour cog ctx own_message member_message
    (platform "Be kind" [picture] Forbidden) []
  = (Raise (CommandError cannot_edit_files), [ReadCompleteMessage 31]) /\
  calls_since []
    (snd (edit_copy table colour cog ctx own_message member_message
            (platform "Be kind" [] Forbidden) []))
  = [ReadCompleteMessage 31;
     EditMessage 30
       {| Edit.content := Passed (Some "Be kind");
          Edit.embed := Passed (Some rules_text);
          Edit.files := Omitted |};
     status_call ctx (rule_embed table colour cog msg_edited)].
Proof.
  split.
  - refine (proj1 (proj1 (edit_copy_files_or_edit table colour cog ctx
                            own_message member_message
                            (platform "Be kind" [picture] Forbidden) [])
                     "Be kind" [picture] (Some rules_text) _
                     eq_refl eq_refl _)).
    intros E; discriminate E.
  - destruct (proj2 (edit_copy_files_or_edit table colour cog ctx
                       own_message member_message
                       (platform "Be kind" [] Forbidden) []) eq_refl)
      as (_ & content & embed & Hread & Hcalls).
    injection Hread as <- <-. exact Hcalls.
Defined.

Lemma edit_text_replaces_text_run :
  calls_since []
    (snd (edit_text table colour cog ctx own_message (accepting []) []))
  = [status_call ctx (rule_embed table colour cog send_new_message);
     prompt_call ctx;
     EditMessage 30
       {| Edit.content := Passed (Some "Be kind");
          Edit.embed := Passed None;
          Edit.files := Omitted |};
     EditMessage 1000
       (embed_only
          (Embed.add_description
             (rule_embed table colour cog send_new_message)
             (nl2 +:+ table msg_edited)))].
Proof.
  destruct (edit_text_replaces_text table colour cog ctx own_message
              (accepting []) [] eq_refl)
    as (_ & msg & content & Hmsg & Hanswer & Hcalls).
  injection Hmsg as <-. injection Hanswer as <-. exact Hcalls.
Defined.



Lemma send_commands_frame_run :
  exists status msg,
    on_send (accepting []) [] (Context.channel ctx) None (Some status) []
    = Ok msg /\
    1000 = Message.id msg.
Proof.
  assert (Hin :
    In (EditMessage 1000
          (embed_only
             (Embed.add_description (rule_embed table colour cog send_message)
                (nl2 +:+ table msg_sent))))
      (calls_since []
         (snd (send_text table colour cog ctx staff_channel
                 (accepting []) []))))
    by (do 3 right; left; reflexivity).
  destruct (send_commands_frame table colour cog ctx staff_channel None
              own_message (accepting []) [] _ (or_introl Hin))
    as (_ & Hedit & _).
  exact (Hedit _ _ eq_refl).
Defined.

Lemma edit_commands_frame_run :
  21 = TextChannel.id (Context.channel
                         {| Context.channel := staff_channel;
                            Context.author := moderator;
                            Context.invoked_subcommand := Some "copy" |}).
Proof.
  assert (Hin :
    In (Send 21 None (Some (rule_embed table colour cog msg_edited)) [])
      (calls_since []
         (snd (edit_copy table colour cog
                 {| Context.channel := staff_channel;
                    Context.author := moderator;
                    Context.invoked_subcommand := Some "copy" |}
                 own_message member_message (accepting []) []))))
    by (do 2 right; left; reflexivity).
  destruct (edit_commands_frame table colour cog _ own_message None
              member_message (accepting []) [] _
              (or_intror (or_intror Hin)))
    as (_ & _ & Hsend).
  exact (Hsend _ _ _ _ eq_refl).
Defined.

Lemma silent_posts_status embed :
  exists msg, on_send silent [] (Context.channel ctx) None (Some embed) [] = Ok msg.
Proof. eexists. reflexivity. Defined.

Lemma unanswered_prompt_run :
  send_text table colour cog ctx rules_channel silent []
  = (Raise (OtherException "TimeoutError"),
     [status_call ctx (rule_embed table colour cog send_message);
      prompt_call ctx]) /\
  edit_embed table colour cog ctx own_message (Some (Str "ff0000")) silent []
  = (Raise (OtherException "TimeoutError"),
     [status_call ctx (rule_embed table colour cog send_embed_title);
      prompt_call ctx]).
Proof.
  destruct (unanswered_prompt table colour cog ctx silent []
              (OtherException "TimeoutError")
              silent_posts_status (fun _ => eq_refl))
    as [Hsend Hedit].
  split.
  - exact (proj1 (Hsend rules_channel eq_refl)).
  - exact (proj2 (Hedit own_message eq_refl) (Some (Str "ff0000")) eq_refl).
Defined.

End MoreRuns.
